(** * gemini.py: a command-line client for a generative-language API

    A shallow embedding of [src/gemini.py] ([call_gemini] and [main]) and
    the properties of its prompt resolution, its error strings and its
    exit code.

    Conventions of the model.
    - A Python [str] is a [string]; a character is a code point below 256.
      [str.strip()] and [str.lower()] are Python's on that range.
    - The program's surroundings (parsed command line, standard input,
      environment, the [google.generativeai] library) are a [World]; every
      effect the program has on them is recorded, in order, as an [Event].
      An event is an operation of the script itself; what the library does
      inside one of its operations is not recorded.
    - A library operation returns or raises an instance of [Exception],
      which is what the [except Exception] clause of [call_gemini] catches.
      Signals that are not instances of [Exception] ([KeyboardInterrupt],
      [SystemExit] raised by someone else) are outside the model, and so
      are failures of [print] and of [sys.stdin.read].
    - [main] starts after [parser.parse_args()] has returned. *)

From Stdlib Require Import List Bool Ascii String NArith ZArith Lia.
Import ListNotations.
Open Scope string_scope.

(** ** Python strings *)

Module Py.

(** The line feed, written [\n] in the source. *)
Definition nl : string := String (ascii_of_N 10) EmptyString.

(** [c.isspace()] for a code point below 256: TAB, LF, VT, FF, CR,
    FS, GS, RS, US, SPACE, NEL and NBSP. *)
Definition isspace (c : ascii) : bool :=
  let n := N_of_ascii c in
  (((9 <=? n) && (n <=? 13)) || ((28 <=? n) && (n <=? 32))
   || (n =? 133) || (n =? 160))%N.

(** [c.lower()] for a code point below 256: A-Z and the capital letters
    of the Latin-1 block (all of 192..222 but the multiplication sign). *)
Definition lower_char (c : ascii) : ascii :=
  let n := N_of_ascii c in
  if (((65 <=? n) && (n <=? 90))
      || ((192 <=? n) && (n <=? 222) && negb (n =? 215)))%N
  then ascii_of_N (n + 32) else c.

(** [s.lower()] *)
Fixpoint lower (s : string) : string :=
  match s with
  | EmptyString => EmptyString
  | String c s' => String (lower_char c) (lower s')
  end.

(** [s.startswith(p)] *)
Definition startswith (s p : string) : bool := String.prefix p s.

(** [s.lstrip()] *)
Fixpoint lstrip (s : string) : string :=
  match s with
  | EmptyString => EmptyString
  | String c s' => if isspace c then lstrip s' else s
  end.

(** [s.rstrip()] *)
Fixpoint rstrip (s : string) : string :=
  match s with
  | EmptyString => EmptyString
  | String c s' =>
      match rstrip s' with
      | EmptyString => if isspace c then EmptyString else String c EmptyString
      | r => String c r
      end
  end.

(** [s.strip()]: both ends. *)
Definition strip (s : string) : string := rstrip (lstrip s).

(** [sep.join(parts)] *)
Fixpoint join (sep : string) (parts : list string) : string :=
  match parts with
  | [] => EmptyString
  | [p] => p
  | p :: rest => p ++ sep ++ join sep rest
  end.

(** Truth value of a string: [not s] is [negb (truthy s)]. *)
Definition truthy (s : string) : bool :=
  match s with EmptyString => false | String _ _ => true end.

(** Truth value of what [dict.get] returns: [None] and [""] are false. *)
Definition truthy_opt (o : option string) : bool :=
  match o with None => false | Some s => truthy s end.

(** Truth value of a list. *)
Definition truthy_list {A : Type} (l : list A) : bool :=
  match l with [] => false | _ :: _ => true end.

(** An instance of [Exception]; [exc_str e] is [str(e)]. *)
Record Exception : Type := mkException { exc_str : string }.

End Py.

(** ** The world and the effects *)

Inductive Stream : Type := Stdout | Stderr.

Inductive Event : Type :=
| EvPrint (file : Stream) (s : string)      (* print(s, file=file) *)
| EvPrintHelp (file : Stream)               (* parser.print_help(file) *)
| EvIsatty                                  (* sys.stdin.isatty() *)
| EvStdinRead                               (* sys.stdin.read() *)
| EvEnvironGet (name : string)              (* os.environ.get(name) *)
| EvConfigure (api_key : string)            (* genai.configure(api_key=...) *)
| EvGenerativeModel (model_name : string)   (* genai.GenerativeModel(...) *)
| EvGenerateContent (model_name contents : string).
                                            (* model.generate_content(...) *)

(** What [generate_content] returns: [response.candidates] and
    [response.text], a property that can raise. *)
Record Response : Type := mkResponse {
  candidates : list string;
  text : Py.Exception + string
}.

Record World : Type := mkWorld {
  prompt_parts : list string;          (* args.prompt_parts *)
  flag_model : option string;          (* --model, when given *)
  stdin_isatty : bool;
  stdin_data : string;                 (* everything up to end of input *)
  environ : string -> option string;   (* os.environ *)
  genai_configure : string -> option Py.Exception;
  genai_GenerativeModel : string -> option Py.Exception;
  genai_generate_content : string -> string -> Py.Exception + Response
}.

(** [args.model]: the flag or its default. *)
Definition args_model (w : World) : string :=
  match flag_model w with
  | Some m => m
  | None => "gemini-1.5-flash-latest"
  end.

(** The local variable [prompt] of [main] and the events so far. *)
Record State : Type := mkState {
  v_prompt : string;
  trace : list Event
}.

Inductive Outcome (A : Type) : Type :=
| Return (a : A)
| Raise (e : Py.Exception)
| SystemExit (code : Z).
Arguments Return {A} a.
Arguments Raise {A} e.
Arguments SystemExit {A} code.

Definition M (A : Type) : Type := State -> Outcome A * State.

Definition ret {A : Type} (a : A) : M A := fun s => (Return a, s).

Definition bind {A B : Type} (m : M A) (k : A -> M B) : M B :=
  fun s =>
    match m s with
    | (Return a, s') => k a s'
    | (Raise e, s') => (Raise e, s')
    | (SystemExit c, s') => (SystemExit c, s')
    end.

Notation "x <- m ;; k" := (bind m (fun x => k))
  (at level 61, m at next level, right associativity).
Notation "m ;;; k" := (bind m (fun _ => k))
  (at level 61, right associativity).

Definition emit (e : Event) : M unit :=
  fun s => (Return tt, mkState (v_prompt s) (trace s ++ [e])).

Definition raise {A : Type} (e : Py.Exception) : M A :=
  fun s => (Raise e, s).

(** [sys.exit(code)] *)
Definition sys_exit {A : Type} (code : Z) : M A :=
  fun s => (SystemExit code, s).

(** [try: body / except Exception as e: handler e] *)
Definition try_except {A : Type} (body : M A)
    (handler : Py.Exception -> M A) : M A :=
  fun s =>
    match body s with
    | (Raise e, s') => handler e s'
    | r => r
    end.

(** [prompt = v] *)
Definition set_prompt (v : string) : M unit :=
  fun s => (Return tt, mkState v (trace s)).

Definition get_prompt : M string :=
  fun s => (Return (v_prompt s), s).

Definition when (b : bool) (m : M unit) : M unit :=
  if b then m else ret tt.

(** A call of a library operation that returns nothing. *)
Definition lib_call (ev : Event) (r : option Py.Exception) : M unit :=
  emit ev ;;;
  match r with
  | Some e => raise e
  | None => ret tt
  end.

(** A library operation or property that returns a value. *)
Definition lib_value {A : Type} (r : Py.Exception + A) : M A :=
  match r with
  | inl e => raise e
  | inr a => ret a
  end.

Section Program.

Variable w : World.

Definition print (file : Stream) (s : string) : M unit :=
  emit (EvPrint file s).

Definition print_help (file : Stream) : M unit :=
  emit (EvPrintHelp file).

Definition isatty : M bool :=
  emit EvIsatty ;;; ret (stdin_isatty w).

Definition stdin_read : M string :=
  emit EvStdinRead ;;; ret (stdin_data w).

Definition environ_get (name : string) : M (option string) :=
  emit (EvEnvironGet name) ;;; ret (environ w name).

Definition configure (api_key : string) : M unit :=
  lib_call (EvConfigure api_key) (genai_configure w api_key).

(** The model instance is its name. *)
Definition GenerativeModel (model_name : string) : M string :=
  lib_call (EvGenerativeModel model_name)
           (genai_GenerativeModel w model_name) ;;;
  ret model_name.

Definition generate_content (model contents : string) : M Response :=
  emit (EvGenerateContent model contents) ;;;
  lib_value (genai_generate_content w model contents).

(** ** [call_gemini] *)

Definition system_prompt : string :=
  "Context: Linux. Provide a concise response:" ++ Py.nl.

Definition msg_no_key : string :=
  "Error: GEMINI_API_KEY environment variable not set.".

Definition msg_no_content : string :=
  "Error: No content generated (check safety settings or prompt).".

Definition msg_api_error (e : Py.Exception) : string :=
  "Error calling Gemini API: " ++ Py.exc_str e.

(** The body of the [try] statement.  [model_name] has a default in the
    source, ["gemini-2.0-flash"]; [main], the only caller, always gives
    the argument. *)
Definition call_gemini_body (prompt_text model_name : string) : M string :=
  api_key <- environ_get "GEMINI_API_KEY" ;;
  match api_key with
  | None => ret msg_no_key
  | Some key =>
      if negb (Py.truthy key) then ret msg_no_key
      else
        configure key ;;;
        let full_prompt := system_prompt ++ prompt_text in
        model <- GenerativeModel model_name ;;
        response <- generate_content model full_prompt ;;
        if negb (Py.truthy_list (candidates response))
        then ret msg_no_content
        else
          t <- lib_value (text response) ;;
          ret (Py.strip t)
  end.

Definition call_gemini (prompt_text model_name : string) : M string :=
  try_except (call_gemini_body prompt_text model_name)
             (fun e => ret (msg_api_error e)).

(** ** [main] *)

Definition msg_hint : string :=
  "Enter prompt (press Ctrl+D on Linux/macOS or Ctrl+Z then Enter on Windows to end):".

Definition msg_no_prompt : string :=
  "Error: No prompt provided either as argument or via stdin.".

Definition main : M unit :=
  set_prompt "" ;;;
  (if Py.truthy_list (prompt_parts w)
   then set_prompt (Py.join " " (prompt_parts w))
   else
     tty <- isatty ;;
     when tty (print Stderr msg_hint) ;;;
     data <- stdin_read ;;
     set_prompt (Py.strip data) ;;;
     prompt <- get_prompt ;;
     if negb (Py.truthy prompt)
     then
       print Stderr msg_no_prompt ;;;
       print_help Stderr ;;;
       sys_exit 1
     else ret tt) ;;;
  prompt <- get_prompt ;;
  result <- call_gemini prompt (args_model w) ;;
  print Stdout result ;;;
  if Py.startswith (Py.lower result) "error:"
  then sys_exit 1
  else ret tt.

End Program.

(** The state in which the interpreter enters [main]. *)
Definition initial : State := mkState "" [].

(** Exit status of the process: [SystemExit] carries it, an uncaught
    exception gives 1, falling off the end of the script gives 0. *)
Definition exit_status (o : Outcome unit) : Z :=
  match o with
  | Return _ => 0
  | Raise _ => 1
  | SystemExit c => c
  end.

(** One run of the script. *)
Definition run (w : World) : Z * State :=
  let (o, s) := main w initial in (exit_status o, s).

Definition exit_code (w : World) : Z := fst (run w).
Definition resolved_prompt (w : World) : string := v_prompt (snd (run w)).
Definition events (w : World) : list Event := trace (snd (run w)).

(** ** Vocabulary of the properties *)

Fixpoint all_space (s : string) : bool :=
  match s with
  | EmptyString => true
  | String c s' => Py.isspace c && all_space s'
  end.

Definition starts_with_space (s : string) : bool :=
  match s with
  | EmptyString => false
  | String c _ => Py.isspace c
  end.

Fixpoint ends_with_space (s : string) : bool :=
  match s with
  | EmptyString => false
  | String c EmptyString => Py.isspace c
  | String _ s' => ends_with_space s'
  end.

(** [t] is [s] with its leading and trailing whitespace removed: [s] is
    [t] between two runs of whitespace, and [t] has whitespace at neither
    end. *)
Definition trimmed_of (s t : string) : Prop :=
  (exists l r, s = l ++ t ++ r /\ all_space l = true /\ all_space r = true)
  /\ starts_with_space t = false /\ ends_with_space t = false.

(** [p] is a prefix of [r] up to the case of the letters. *)
Definition caseless_prefix (p r : string) : Prop :=
  exists h t, r = h ++ t /\ Py.lower h = Py.lower p.

Definition is_library_event (e : Event) : bool :=
  match e with
  | EvConfigure _ | EvGenerativeModel _ | EvGenerateContent _ _ => true
  | _ => false
  end.

(** The events of the API layer: the read of the credential and the calls
    of the library. *)
Definition is_api_event (e : Event) : bool :=
  match e with
  | EvEnvironGet _ => true
  | _ => is_library_event e
  end.

Definition is_stdin_event (e : Event) : bool :=
  match e with
  | EvIsatty | EvStdinRead => true
  | _ => false
  end.

Definition is_stderr_event (e : Event) : bool :=
  match e with
  | EvPrint Stderr _ | EvPrintHelp Stderr => true
  | _ => false
  end.

(** The state after more events. *)
Definition extend (s : State) (evs : list Event) : State :=
  mkState (v_prompt s) (trace s ++ evs).

(** The events of reading standard input, with the hint on a terminal. *)
Definition read_events (w : World) : list Event :=
  EvIsatty ::
  (if stdin_isatty w then [EvPrint Stderr msg_hint] else []) ++
  [EvStdinRead].

(** What [main] does once [prompt] is settled: the call, the print and the
    test of the prefix. *)
Definition deliver (w : World) (prompt : string) : M unit :=
  result <- call_gemini w prompt (args_model w) ;;
  print Stdout result ;;;
  if Py.startswith (Py.lower result) "error:"
  then sys_exit 1
  else ret tt.

(** The events of a call that reaches [generate_content]. *)
Definition request_events (key p m : string) : list Event :=
  [EvEnvironGet "GEMINI_API_KEY"; EvConfigure key; EvGenerativeModel m;
   EvGenerateContent m (system_prompt ++ p)].

Definition is_result_print (e : Event) : bool :=
  match e with
  | EvPrint Stdout _ => true
  | _ => false
  end.

(** No prompt could be resolved: no positional argument, and nothing but
    whitespace on standard input. *)
Definition no_prompt (w : World) : Prop :=
  prompt_parts w = [] /\ Py.strip (stdin_data w) = "".

(** [r] is a string the run printed on standard output. *)
Definition printed_result (w : World) (r : string) : Prop :=
  In (EvPrint Stdout r) (events w).

(** The error path of an empty prompt: the message and the help text on
    the error stream, exit status 1, no event of the API layer. *)
Definition empty_prompt_error_path (w : World) : Prop :=
  exit_code w = 1%Z
  /\ In (EvPrint Stderr msg_no_prompt) (events w)
  /\ In (EvPrintHelp Stderr) (events w)
  /\ existsb is_api_event (events w) = false.

(** [main] goes on to call [call_gemini] with [p], the value of [prompt],
    having read nothing from standard input. *)
Definition calls_gemini_with (w : World) (p : string) : Prop :=
  main w initial = deliver w p (mkState p []).

(** The run reached the call of [call_gemini] with prompt [p] after the
    events [pre]: the call returned [r], which was printed, and the exit
    status follows the prefix of [r]. *)
Definition delivered (w : World) (pre : list Event) (p : string) : Prop :=
  exists r evs,
    call_gemini w p (args_model w) (mkState p pre)
    = (Return r, mkState p (pre ++ EvEnvironGet "GEMINI_API_KEY" :: evs))
    /\ forallb is_library_event evs = true
    /\ run w
       = ((if Py.startswith (Py.lower r) "error:" then 1 else 0)%Z,
          mkState p (pre ++ EvEnvironGet "GEMINI_API_KEY" :: evs
                     ++ [EvPrint Stdout r])).

(** [n] spaces. *)
Fixpoint spaces (n : nat) : string :=
  match n with
  | O => EmptyString
  | S n' => String " " (spaces n')
  end.

(** The events of [main] before the call of [call_gemini]: none with
    positional arguments, the reading of standard input without. *)
Definition prelude (w : World) : list Event :=
  match prompt_parts w with
  | [] => read_events w
  | _ :: _ => []
  end.

(** The calls of the library in a call of [call_gemini], in their order. *)
Definition library_events (key p m : string) : list Event :=
  [EvConfigure key; EvGenerativeModel m;
   EvGenerateContent m (system_prompt ++ p)].

(** The same world with another standard input. *)
Definition with_stdin (w : World) (tty : bool) (data : string) : World :=
  mkWorld (prompt_parts w) (flag_model w) tty data (environ w)
          (genai_configure w) (genai_GenerativeModel w)
          (genai_generate_content w).

(** The string [r] is recognised as an error by the test of [main]. *)
Definition flagged (r : string) : bool :=
  Py.startswith (Py.lower r) "error:".

(** ** Sample worlds *)

Module Samples.

Definition with_key (name : string) : option string :=
  if String.eqb name "GEMINI_API_KEY" then Some "secret" else None.

Definition no_env (name : string) : option string := None.

Definition answers (t : string) (model contents : string)
  : Py.Exception + Response :=
  inr (mkResponse [t] (inr t)).

Definition fails (description : string) (model contents : string)
  : Py.Exception + Response :=
  inl (Py.mkException description).

Definition no_candidates (model contents : string)
  : Py.Exception + Response :=
  inr (mkResponse [] (inl (Py.mkException "no valid part"))).

Definition accepts (x : string) : option Py.Exception := None.

(** A credential and a library that answers [" 4 "]. *)
Definition healthy (parts : list string) (input : string) : World :=
  mkWorld parts None false input with_key accepts accepts (answers " 4 ").

(** No credential in the environment. *)
Definition keyless (parts : list string) (input : string) : World :=
  mkWorld parts None false input no_env accepts accepts (answers " 4 ").

(** A credential and a generation call that raises [Exception(d)]. *)
Definition failing (d : string) (parts : list string) : World :=
  mkWorld parts None false "" with_key accepts accepts (fails d).

(** A credential and a response without candidates. *)
Definition blocked (parts : list string) : World :=
  mkWorld parts None false "" with_key accepts accepts no_candidates.

(** A credential the library refuses: [configure] raises. *)
Definition refusing (parts : list string) : World :=
  mkWorld parts None false "" with_key
          (fun _ => Some (Py.mkException "bad key")) accepts (answers " 4 ").

(** A model name the library does not know. *)
Definition unknown_model (parts : list string) : World :=
  mkWorld parts (Some "no-such-model") false "" with_key accepts
          (fun _ => Some (Py.mkException "unknown model")) (answers " 4 ").

(** A response with a candidate whose text cannot be read. *)
Definition unreadable (parts : list string) : World :=
  mkWorld parts None false "" with_key accepts accepts
          (fun _ _ => inr (mkResponse ["blocked"]
                                      (inl (Py.mkException "no valid part")))).

(** A terminal on standard input, on which the user types [input]. *)
Definition terminal (input : string) : World :=
  mkWorld [] None true input with_key accepts accepts (answers " 4 ").

End Samples.

(** ** Facts about strings *)

Module PyFacts.
Import Py.

Lemma append_empty_r (s : string) : s ++ "" = s.
Proof. induction s as [|c s IH]; simpl; [reflexivity | now rewrite IH]. Qed.

Lemma append_assoc (a b c : string) : (a ++ b) ++ c = a ++ (b ++ c).
Proof. induction a as [|x a IH]; simpl; [reflexivity | now rewrite IH]. Qed.

Lemma append_eq_empty (a b : string) : a ++ b = "" -> a = "" /\ b = "".
Proof. destruct a; simpl; [auto | discriminate]. Qed.

Lemma truthy_false_iff (s : string) : truthy s = false <-> s = "".
Proof. destruct s; simpl; split; congruence. Qed.

Lemma truthy_list_true_iff {A : Type} (l : list A) :
  truthy_list l = true <-> l <> [].
Proof. destruct l; simpl; split; congruence. Qed.

(** *** Whitespace at the two ends *)

Lemma lstrip_split (s : string) :
  exists l, s = l ++ lstrip s /\ all_space l = true.
Proof.
  induction s as [|c s [l [Hs Hl]]]; simpl.
  - exists ""; auto.
  - destruct (isspace c) eqn:Hc.
    + exists (String c l); simpl. rewrite Hc, Hl. split; [congruence | reflexivity].
    + exists ""; auto.
Qed.

Lemma lstrip_no_leading (s : string) : starts_with_space (lstrip s) = false.
Proof.
  induction s as [|c s IH]; simpl; [reflexivity|].
  destruct (isspace c) eqn:Hc; [exact IH | simpl; exact Hc].
Qed.

Lemma rstrip_split (s : string) :
  exists r, s = rstrip s ++ r /\ all_space r = true.
Proof.
  induction s as [|c s [r [Hs Hr]]]; simpl.
  - exists ""; auto.
  - destruct (rstrip s) as [|d u] eqn:Hu.
    + simpl in Hs. destruct (isspace c) eqn:Hc.
      * exists (String c r); simpl. rewrite Hc, Hr. split; [congruence | reflexivity].
      * exists r; simpl. split; [congruence | exact Hr].
    + exists r; simpl. split; [now rewrite Hs | exact Hr].
Qed.

Lemma rstrip_no_trailing (s : string) : ends_with_space (rstrip s) = false.
Proof.
  induction s as [|c s IH]; simpl; [reflexivity|].
  destruct (rstrip s) as [|d u] eqn:Hu.
  - destruct (isspace c) eqn:Hc; simpl; [reflexivity | exact Hc].
  - exact IH.
Qed.

Lemma rstrip_keeps_head (s : string) :
  starts_with_space s = false -> starts_with_space (rstrip s) = false.
Proof.
  destruct s as [|c s]; simpl; [reflexivity|]. intros Hc.
  destruct (rstrip s); [rewrite Hc|]; simpl; exact Hc.
Qed.

(** [strip] removes the whitespace at the two ends. *)
Lemma strip_trimmed (s : string) : trimmed_of s (strip s).
Proof.
  unfold trimmed_of, strip.
  destruct (lstrip_split s) as [l [Hs Hl]].
  destruct (rstrip_split (lstrip s)) as [r [Hm Hr]].
  split; [|split].
  - exists l, r. split; [|auto]. rewrite <- Hm. exact Hs.
  - apply rstrip_keeps_head, lstrip_no_leading.
  - apply rstrip_no_trailing.
Qed.

Lemma lstrip_all_space (s : string) : all_space s = true -> lstrip s = "".
Proof.
  induction s as [|c s IH]; simpl; [reflexivity|].
  intros H. apply andb_prop in H. destruct H as [Hc Hs]. rewrite Hc. auto.
Qed.

Lemma lstrip_app_space (l s : string) :
  all_space l = true -> lstrip (l ++ s) = lstrip s.
Proof.
  induction l as [|c l IH]; simpl; [reflexivity|].
  intros H. apply andb_prop in H. destruct H as [Hc Hl]. rewrite Hc. auto.
Qed.

Lemma lstrip_fixed (s : string) : starts_with_space s = false -> lstrip s = s.
Proof. destruct s as [|c s]; simpl; [reflexivity|]. now intros ->. Qed.

Lemma rstrip_all_space (s : string) : all_space s = true -> rstrip s = "".
Proof.
  induction s as [|c s IH]; simpl; [reflexivity|].
  intros H. apply andb_prop in H. destruct H as [Hc Hs].
  rewrite (IH Hs), Hc. reflexivity.
Qed.

Lemma rstrip_app_space (t r : string) :
  all_space r = true -> rstrip (t ++ r) = rstrip t.
Proof.
  intros Hr. induction t as [|c t IH]; simpl.
  - now apply rstrip_all_space.
  - now rewrite IH.
Qed.

Lemma rstrip_fixed (t : string) : ends_with_space t = false -> rstrip t = t.
Proof.
  induction t as [|c t IH]; [reflexivity|].
  destruct t as [|d t].
  - simpl. now intros ->.
  - intros H. change (ends_with_space (String d t) = false) in H.
    change (rstrip (String c (String d t)))
      with (match rstrip (String d t) with
            | EmptyString =>
                if isspace c then EmptyString else String c EmptyString
            | r => String c r
            end).
    rewrite (IH H). reflexivity.
Qed.

(** What [strip] returns is the only such string. *)
Lemma trimmed_unique (s t : string) : trimmed_of s t -> t = strip s.
Proof.
  intros [[l [r [Hs [Hl Hr]]]] [Hhead Htail]]. subst s. unfold strip.
  rewrite (lstrip_app_space _ _ Hl).
  destruct t as [|c t].
  - simpl. rewrite (lstrip_all_space _ Hr). reflexivity.
  - rewrite lstrip_fixed.
    + rewrite (rstrip_app_space _ _ Hr). symmetry. now apply rstrip_fixed.
    + exact Hhead.
Qed.

(** *** Lower case and prefixes *)

Lemma lower_app (a b : string) : lower (a ++ b) = lower a ++ lower b.
Proof. induction a as [|c a IH]; simpl; [reflexivity | now rewrite IH]. Qed.

Lemma lower_char_idem (c : ascii) : lower_char (lower_char c) = lower_char c.
Proof.
  destruct c as [[] [] [] [] [] [] [] []]; vm_compute; reflexivity.
Qed.

Lemma lower_idem (s : string) : lower (lower s) = lower s.
Proof.
  induction s as [|c s IH]; simpl; [reflexivity|].
  now rewrite lower_char_idem, IH.
Qed.

Lemma prefix_app (p t : string) : String.prefix p (p ++ t) = true.
Proof.
  induction p as [|c p IH]; simpl; [now destruct t|].
  destruct (ascii_dec c c); [exact IH | congruence].
Qed.

Lemma prefix_split (p s : string) :
  String.prefix p s = true -> exists t, s = p ++ t.
Proof.
  revert s. induction p as [|c p IH]; intros s H.
  - exists s. reflexivity.
  - destruct s as [|d s]; simpl in H; [discriminate|].
    destruct (ascii_dec c d) as [->|]; [|discriminate].
    destruct (IH s H) as [t ->]. exists t. reflexivity.
Qed.

Lemma lower_split (s a b : string) :
  lower s = a ++ b -> exists h t, s = h ++ t /\ lower h = a /\ lower t = b.
Proof.
  revert s. induction a as [|c a IH]; intros s H.
  - exists "", s. auto.
  - destruct s as [|d s]; simpl in H; [discriminate|].
    injection H as Hc Hs. destruct (IH s Hs) as [h [t [-> [Hh Ht]]]].
    exists (String d h), t. simpl. rewrite Hc, Hh. auto.
Qed.

(** The test [r.lower().startswith(p)], for a [p] in lower case, is the
    prefix test up to case. *)
Lemma startswith_lower_iff (r p : string) :
  lower p = p ->
  (startswith (lower r) p = true <-> caseless_prefix p r).
Proof.
  intros Hp. unfold startswith, caseless_prefix. split.
  - intros H. destruct (prefix_split _ _ H) as [t Ht].
    destruct (lower_split _ _ _ Ht) as [h [t' [-> [Hh _]]]].
    exists h, t'. now rewrite Hp.
  - intros [h [t [-> Hh]]]. rewrite lower_app, Hh, Hp. apply prefix_app.
Qed.

(** *** Joining *)

Lemma join_cons2 (sep a b : string) (l : list string) :
  join sep (a :: b :: l) = a ++ sep ++ join sep (b :: l).
Proof. reflexivity. Qed.

(** The join of a non-empty list is empty only for the list [[""]]. *)
Lemma join_space_empty (parts : list string) :
  parts <> [] -> (join " " parts = "" <-> parts = [""]).
Proof.
  intros Hne. destruct parts as [|a [|b l]]; [congruence| |].
  - simpl. split; congruence.
  - rewrite join_cons2. split; intros H.
    + apply append_eq_empty in H. destruct H as [_ H]. discriminate.
    + discriminate.
Qed.

End PyFacts.

(** ** Running the program *)

Ltac exec :=
  repeat (cbv beta iota delta
            [main deliver call_gemini call_gemini_body try_except bind ret
             emit raise sys_exit set_prompt get_prompt when lib_call
             lib_value print print_help isatty stdin_read environ_get
             configure GenerativeModel generate_content extend];
          cbn [v_prompt trace fst snd negb Py.truthy Py.truthy_list]).

Ltac flatten_trace := rewrite <- ?app_assoc; cbn [app].

Section Runs.

Variable w : World.

Lemma call_gemini_body_no_key (p m : string) (s : State) :
  Py.truthy_opt (environ w "GEMINI_API_KEY") = false ->
  call_gemini_body w p m s
  = (Return msg_no_key, extend s [EvEnvironGet "GEMINI_API_KEY"]).
Proof.
  intros H. exec.
  destruct (environ w "GEMINI_API_KEY") as [key|]; [|reflexivity].
  simpl in H. rewrite H. reflexivity.
Qed.

Lemma call_gemini_no_key (p m : string) (s : State) :
  Py.truthy_opt (environ w "GEMINI_API_KEY") = false ->
  call_gemini w p m s
  = (Return msg_no_key, extend s [EvEnvironGet "GEMINI_API_KEY"]).
Proof.
  intros H. unfold call_gemini, try_except.
  rewrite (call_gemini_body_no_key p m s H). reflexivity.
Qed.

(** With a credential the library is configured, then asked for the model
    and for the content; the first operation that raises ends the body. *)
Lemma call_gemini_body_configure_raises (p m key : string) (s : State)
    (e : Py.Exception) :
  environ w "GEMINI_API_KEY" = Some key -> Py.truthy key = true ->
  genai_configure w key = Some e ->
  call_gemini_body w p m s
  = (Raise e, extend s [EvEnvironGet "GEMINI_API_KEY"; EvConfigure key]).
Proof.
  intros Hk Ht Hc. exec. rewrite Hk, Ht. exec. rewrite Hc.
  exec. flatten_trace. reflexivity.
Qed.

Lemma call_gemini_body_model_raises (p m key : string) (s : State)
    (e : Py.Exception) :
  environ w "GEMINI_API_KEY" = Some key -> Py.truthy key = true ->
  genai_configure w key = None ->
  genai_GenerativeModel w m = Some e ->
  call_gemini_body w p m s
  = (Raise e, extend s [EvEnvironGet "GEMINI_API_KEY"; EvConfigure key;
                        EvGenerativeModel m]).
Proof.
  intros Hk Ht Hc Hm. exec. rewrite Hk, Ht. exec. rewrite Hc, Hm.
  exec. flatten_trace. reflexivity.
Qed.

Lemma call_gemini_body_generate_raises (p m key : string) (s : State)
    (e : Py.Exception) :
  environ w "GEMINI_API_KEY" = Some key -> Py.truthy key = true ->
  genai_configure w key = None ->
  genai_GenerativeModel w m = None ->
  genai_generate_content w m (system_prompt ++ p) = inl e ->
  call_gemini_body w p m s = (Raise e, extend s (request_events key p m)).
Proof.
  intros Hk Ht Hc Hm Hg. exec. rewrite Hk, Ht. exec. rewrite Hc, Hm, Hg.
  exec. flatten_trace. reflexivity.
Qed.

Lemma call_gemini_body_response (p m key : string) (s : State)
    (resp : Response) :
  environ w "GEMINI_API_KEY" = Some key -> Py.truthy key = true ->
  genai_configure w key = None ->
  genai_GenerativeModel w m = None ->
  genai_generate_content w m (system_prompt ++ p) = inr resp ->
  call_gemini_body w p m s
  = (match candidates resp with
     | [] => Return msg_no_content
     | _ :: _ =>
         match text resp with
         | inl e => Raise e
         | inr t => Return (Py.strip t)
         end
     end, extend s (request_events key p m)).
Proof.
  intros Hk Ht Hc Hm Hg. exec. rewrite Hk, Ht. exec. rewrite Hc, Hm, Hg.
  exec. flatten_trace. unfold Py.truthy_list.
  destruct (candidates resp); exec; [reflexivity|].
  destruct (text resp); reflexivity.
Qed.

(** The handler turns what the body raises into a string. *)
Lemma call_gemini_catches (p m : string) (s s' : State) (e : Py.Exception) :
  call_gemini_body w p m s = (Raise e, s') ->
  call_gemini w p m s = (Return (msg_api_error e), s').
Proof. intros H. unfold call_gemini, try_except. rewrite H. reflexivity. Qed.

Lemma call_gemini_passes (p m r : string) (s s' : State) :
  call_gemini_body w p m s = (Return r, s') ->
  call_gemini w p m s = (Return r, s').
Proof. intros H. unfold call_gemini, try_except. rewrite H. reflexivity. Qed.

(** Every call returns a string; its events start with the read of the
    credential, the rest are calls of the library, and a generation call
    carries the model name and the preamble followed by the prompt. *)
Lemma call_gemini_returns (p m : string) (s : State) :
  exists r evs,
    call_gemini w p m s
    = (Return r, extend s (EvEnvironGet "GEMINI_API_KEY" :: evs))
    /\ forallb is_library_event evs = true
    /\ (forall m' t, In (EvGenerateContent m' t) evs ->
                     m' = m /\ t = system_prompt ++ p).
Proof.
  assert (Hreq : forall key m' t,
             In (EvGenerateContent m' t)
                [EvConfigure key; EvGenerativeModel m;
                 EvGenerateContent m (system_prompt ++ p)] ->
             m' = m /\ t = system_prompt ++ p).
  { intros key m' t [H|[H|[H|[]]]]; try discriminate.
    injection H as H1 H2. split; symmetry; assumption. }
  destruct (Py.truthy_opt (environ w "GEMINI_API_KEY")) eqn:Hkey.
  2:{ exists msg_no_key, []. rewrite (call_gemini_no_key p m s Hkey).
      split; [reflexivity|]. split; [reflexivity | intros ? ? []]. }
  destruct (environ w "GEMINI_API_KEY") as [key|] eqn:Hk; [|discriminate].
  simpl in Hkey.
  destruct (genai_configure w key) as [e|] eqn:Hc.
  { exists (msg_api_error e), [EvConfigure key].
    rewrite (call_gemini_catches _ _ _ _ _
               (call_gemini_body_configure_raises p m key s e Hk Hkey Hc)).
    split; [reflexivity|]. split; [reflexivity|].
    intros ? ? [H|[]]; discriminate. }
  destruct (genai_GenerativeModel w m) as [e|] eqn:Hm.
  { exists (msg_api_error e), [EvConfigure key; EvGenerativeModel m].
    rewrite (call_gemini_catches _ _ _ _ _
               (call_gemini_body_model_raises p m key s e Hk Hkey Hc Hm)).
    split; [reflexivity|]. split; [reflexivity|].
    intros ? ? [H|[H|[]]]; discriminate. }
  destruct (genai_generate_content w m (system_prompt ++ p))
    as [e|resp] eqn:Hg.
  { exists (msg_api_error e), (tl (request_events key p m)).
    rewrite (call_gemini_catches _ _ _ _ _
               (call_gemini_body_generate_raises p m key s e Hk Hkey Hc Hm Hg)).
    split; [reflexivity|]. split; [reflexivity | apply Hreq]. }
  pose proof (call_gemini_body_response p m key s resp Hk Hkey Hc Hm Hg) as Hb.
  destruct (candidates resp) as [|c cs].
  { exists msg_no_content, (tl (request_events key p m)).
    rewrite (call_gemini_passes _ _ _ _ _ Hb).
    split; [reflexivity|]. split; [reflexivity | apply Hreq]. }
  destruct (text resp) as [e|t].
  - exists (msg_api_error e), (tl (request_events key p m)).
    rewrite (call_gemini_catches _ _ _ _ _ Hb).
    split; [reflexivity|]. split; [reflexivity | apply Hreq].
  - exists (Py.strip t), (tl (request_events key p m)).
    rewrite (call_gemini_passes _ _ _ _ _ Hb).
    split; [reflexivity|]. split; [reflexivity | apply Hreq].
Qed.

(** *** The three ways through [main] *)

Lemma main_args (s : State) :
  prompt_parts w <> [] ->
  main w s
  = deliver w (Py.join " " (prompt_parts w))
            (mkState (Py.join " " (prompt_parts w)) (trace s)).
Proof.
  intros H. apply PyFacts.truthy_list_true_iff in H.
  exec. rewrite H. exec. reflexivity.
Qed.

Lemma main_stdin_blank (s : State) :
  prompt_parts w = [] -> Py.strip (stdin_data w) = "" ->
  main w s
  = (SystemExit 1,
     mkState "" (trace s ++ read_events w ++
                 [EvPrint Stderr msg_no_prompt; EvPrintHelp Stderr])).
Proof.
  intros Hp Hs. exec. rewrite Hp. unfold Py.truthy_list. exec.
  unfold read_events.
  destruct (stdin_isatty w); exec; rewrite Hs; exec;
    flatten_trace; reflexivity.
Qed.

Lemma main_stdin_text (s : State) :
  prompt_parts w = [] -> Py.strip (stdin_data w) <> "" ->
  main w s
  = deliver w (Py.strip (stdin_data w))
            (mkState (Py.strip (stdin_data w)) (trace s ++ read_events w)).
Proof.
  intros Hp Hs. exec. rewrite Hp. unfold Py.truthy_list. exec.
  unfold read_events.
  destruct (Py.strip (stdin_data w)) as [|c t] eqn:E; [congruence|].
  destruct (stdin_isatty w); exec; flatten_trace; reflexivity.
Qed.

(** [deliver] prints what [call_gemini] returns and exits by its prefix. *)
Lemma deliver_runs (p : string) (s : State) :
  exists r evs,
    call_gemini w p (args_model w) s
    = (Return r, extend s (EvEnvironGet "GEMINI_API_KEY" :: evs))
    /\ forallb is_library_event evs = true
    /\ deliver w p s
       = (if Py.startswith (Py.lower r) "error:"
          then SystemExit 1 else Return tt,
          extend s (EvEnvironGet "GEMINI_API_KEY" :: evs
                    ++ [EvPrint Stdout r])).
Proof.
  destruct (call_gemini_returns p (args_model w) s) as [r [evs [Hc [He _]]]].
  exists r, evs. split; [exact Hc|]. split; [exact He|].
  unfold deliver, bind at 1. rewrite Hc. exec.
  flatten_trace. destruct (Py.startswith (Py.lower r) "error:"); reflexivity.
Qed.

End Runs.

(** *** A call with a credential *)

Section Calls.

Variable w : World.

(** The four ways through a call with a credential. *)
Lemma call_gemini_with_key (p m key : string) (s : State) :
  environ w "GEMINI_API_KEY" = Some key -> Py.truthy key = true ->
  call_gemini w p m s
  = match genai_configure w key with
    | Some e =>
        (Return (msg_api_error e),
         extend s (firstn 2 (request_events key p m)))
    | None =>
        match genai_GenerativeModel w m with
        | Some e =>
            (Return (msg_api_error e),
             extend s (firstn 3 (request_events key p m)))
        | None =>
            (Return
               match genai_generate_content w m (system_prompt ++ p) with
               | inl e => msg_api_error e
               | inr resp =>
                   match candidates resp with
                   | [] => msg_no_content
                   | _ :: _ =>
                       match text resp with
                       | inl e => msg_api_error e
                       | inr t => Py.strip t
                       end
                   end
               end, extend s (request_events key p m))
        end
    end.
Proof.
  intros Hk Ht.
  destruct (genai_configure w key) as [e|] eqn:Hc.
  { exact (call_gemini_catches w _ _ _ _ _
             (call_gemini_body_configure_raises w p m key s e Hk Ht Hc)). }
  destruct (genai_GenerativeModel w m) as [e|] eqn:Hm.
  { exact (call_gemini_catches w _ _ _ _ _
             (call_gemini_body_model_raises w p m key s e Hk Ht Hc Hm)). }
  destruct (genai_generate_content w m (system_prompt ++ p))
    as [e|resp] eqn:Hg.
  { exact (call_gemini_catches w _ _ _ _ _
             (call_gemini_body_generate_raises w p m key s e Hk Ht Hc Hm Hg)). }
  pose proof (call_gemini_body_response w p m key s resp Hk Ht Hc Hm Hg) as Hb.
  destruct (candidates resp); [exact (call_gemini_passes w _ _ _ _ _ Hb)|].
  destruct (text resp);
    [exact (call_gemini_catches w _ _ _ _ _ Hb)
    |exact (call_gemini_passes w _ _ _ _ _ Hb)].
Qed.

(** The events of a call: the read of the credential, then, if there is
    one, the first [n] calls of the library in their order, [n] from 1
    to 3. *)
Lemma call_gemini_trace (p m : string) (s : State) :
  exists r evs,
    call_gemini w p m s
    = (Return r, extend s (EvEnvironGet "GEMINI_API_KEY" :: evs))
    /\ ((Py.truthy_opt (environ w "GEMINI_API_KEY") = false
         /\ evs = [] /\ r = msg_no_key)
        \/ exists key n,
             environ w "GEMINI_API_KEY" = Some key
             /\ Py.truthy key = true
             /\ (1 <= n <= 3)%nat
             /\ evs = firstn n (library_events key p m)).
Proof.
  destruct (Py.truthy_opt (environ w "GEMINI_API_KEY")) eqn:Hkey.
  2:{ exists msg_no_key, []. rewrite (call_gemini_no_key w p m s Hkey).
      split; [reflexivity|]. left. auto. }
  destruct (environ w "GEMINI_API_KEY") as [key|] eqn:Hk; [|discriminate].
  simpl in Hkey. rewrite (call_gemini_with_key p m key s Hk Hkey).
  destruct (genai_configure w key) as [e|].
  { eexists. exists (firstn 1 (library_events key p m)).
    split; [reflexivity|]. right. exists key, 1%nat. repeat split; auto. }
  destruct (genai_GenerativeModel w m) as [e|].
  { eexists. exists (firstn 2 (library_events key p m)).
    split; [reflexivity|]. right. exists key, 2%nat. repeat split; auto. }
  eexists. exists (firstn 3 (library_events key p m)).
  split; [reflexivity|]. right. exists key, 3%nat. repeat split; auto.
Qed.

End Calls.

(** ** Whole runs *)

Section WholeRuns.

Variable w : World.

(** [main] returns or exits with status 1; no exception leaves it. *)
Lemma main_outcome :
  fst (main w initial) = Return tt \/ fst (main w initial) = SystemExit 1.
Proof.
  assert (Hd : forall p s, fst (deliver w p s) = Return tt
                           \/ fst (deliver w p s) = SystemExit 1).
  { intros p s. destruct (deliver_runs w p s) as [r [evs [_ [_ H]]]].
    rewrite H. destruct (Py.startswith (Py.lower r) "error:"); auto. }
  destruct (prompt_parts w) as [|a l] eqn:Hp.
  - destruct (string_dec (Py.strip (stdin_data w)) "") as [Hs|Hs].
    + rewrite (main_stdin_blank w initial Hp Hs). right. reflexivity.
    + rewrite (main_stdin_text w initial Hp Hs). apply Hd.
  - rewrite main_args; [apply Hd | rewrite Hp; discriminate].
Qed.

Lemma run_of_deliver (pre : list Event) (p : string) :
  main w initial = deliver w p (mkState p pre) -> delivered w pre p.
Proof.
  intros Hm.
  destruct (deliver_runs w p (mkState p pre)) as [r [evs [Hc [He Hd]]]].
  exists r, evs. split; [exact Hc|]. split; [exact He|].
  unfold run. rewrite Hm, Hd.
  destruct (Py.startswith (Py.lower r) "error:"); reflexivity.
Qed.

Lemma run_args :
  prompt_parts w <> [] -> delivered w [] (Py.join " " (prompt_parts w)).
Proof. intros H. apply run_of_deliver. now rewrite main_args. Qed.

Lemma run_stdin_text :
  prompt_parts w = [] -> Py.strip (stdin_data w) <> "" ->
  delivered w (read_events w) (Py.strip (stdin_data w)).
Proof. intros Hp Hs. apply run_of_deliver. now rewrite main_stdin_text. Qed.

Lemma run_stdin_blank :
  no_prompt w ->
  run w = (1%Z, mkState "" (read_events w ++
                            [EvPrint Stderr msg_no_prompt;
                             EvPrintHelp Stderr])).
Proof.
  intros [Hp Hs]. unfold run. rewrite (main_stdin_blank w initial Hp Hs).
  reflexivity.
Qed.

(** Every run goes one of the three ways. *)
Lemma run_cases :
  no_prompt w
  \/ (prompt_parts w <> [] /\ delivered w [] (Py.join " " (prompt_parts w)))
  \/ (prompt_parts w = [] /\ Py.strip (stdin_data w) <> ""
      /\ delivered w (read_events w) (Py.strip (stdin_data w))).
Proof.
  destruct (prompt_parts w) as [|a l] eqn:Hp.
  - destruct (string_dec (Py.strip (stdin_data w)) "") as [Hs|Hs].
    + left. split; assumption.
    + right. right. split; [reflexivity|]. split; [exact Hs|].
      now apply run_stdin_text.
  - right. left. split; [discriminate|]. rewrite <- Hp.
    apply run_args. rewrite Hp. discriminate.
Qed.

Lemma read_events_kinds (e : Event) :
  In e (read_events w) ->
  is_result_print e = false /\ is_api_event e = false.
Proof.
  unfold read_events. destruct (stdin_isatty w); simpl; intros H;
    repeat (destruct H as [<-|H]; [split; reflexivity|]); destruct H.
Qed.

Lemma library_event_kinds (evs : list Event) (e : Event) :
  forallb is_library_event evs = true -> In e evs ->
  is_result_print e = false /\ is_stdin_event e = false
  /\ is_stderr_event e = false /\ is_api_event e = true.
Proof.
  intros Hall Hin. rewrite forallb_forall in Hall. specialize (Hall e Hin).
  destruct e as [[] ?|[]| | | | | |]; simpl in *; try discriminate; auto.
Qed.

(** A run that reached [deliver] printed one string on standard output. *)
Lemma delivered_printed (pre : list Event) (p : string) :
  delivered w pre p ->
  (forall e, In e pre -> is_result_print e = false) ->
  exists r,
    exit_code w = (if Py.startswith (Py.lower r) "error:" then 1 else 0)%Z
    /\ forall r', printed_result w r' <-> r' = r.
Proof.
  intros [r [evs [_ [He Hr]]]] Hpre. exists r.
  unfold exit_code, printed_result, events. rewrite Hr. cbn [fst snd trace].
  split; [reflexivity|]. intros r'. split.
  - intros H. apply in_app_or in H. destruct H as [H|H].
    + apply Hpre in H. discriminate.
    + destruct H as [H|H]; [discriminate|].
      apply in_app_or in H. destruct H as [H|[H|[]]].
      * apply (library_event_kinds evs _ He) in H.
        destruct H as [H _]. discriminate.
      * congruence.
  - intros ->. apply in_or_app. right. right. apply in_or_app. right.
    left. reflexivity.
Qed.

Lemma delivered_prompt (pre : list Event) (p : string) :
  delivered w pre p -> resolved_prompt w = p.
Proof.
  intros [r [evs [_ [_ Hr]]]]. unfold resolved_prompt. now rewrite Hr.
Qed.

Lemma delivered_events (pre : list Event) (p : string) :
  delivered w pre p ->
  exists r evs,
    events w = (pre ++ EvEnvironGet "GEMINI_API_KEY" :: evs
                ++ [EvPrint Stdout r])%list
    /\ forallb is_library_event evs = true.
Proof.
  intros [r [evs [_ [He Hr]]]]. exists r, evs.
  unfold events. rewrite Hr. auto.
Qed.

(** The error path is taken exactly when no prompt could be resolved. *)
Lemma error_path_iff : empty_prompt_error_path w <-> no_prompt w.
Proof.
  split.
  - intros [_ [_ [_ Hapi]]].
    destruct run_cases as [H|[[_ H]|[_ [_ H]]]]; [exact H| |];
      destruct (delivered_events _ _ H) as [r [evs [Hev _]]];
      rewrite Hev, existsb_app in Hapi; simpl in Hapi;
      rewrite ?orb_true_r in Hapi; discriminate.
  - intros H. unfold empty_prompt_error_path, exit_code, events.
    rewrite (run_stdin_blank H). cbn [fst snd trace].
    split; [reflexivity|]. split; [|split].
    + apply in_or_app. right. left. reflexivity.
    + apply in_or_app. right. right. left. reflexivity.
    + rewrite existsb_app. simpl. rewrite orb_false_r.
      unfold read_events. destruct (stdin_isatty w); reflexivity.
Qed.

End WholeRuns.

(** ** Auxiliary facts for the properties *)

Lemma existsb_none {A : Type} (f : A -> bool) (l : list A) :
  (forall x, In x l -> f x = false) -> existsb f l = false.
Proof.
  induction l as [|a l IH]; intros H; simpl; [reflexivity|].
  rewrite (H a (or_introl eq_refl)). apply IH.
  intros x Hx. apply H. right. exact Hx.
Qed.

Lemma join_all_empty (parts : list string) :
  parts <> [] -> (forall x, In x parts -> x = "") ->
  Py.join " " parts = spaces (List.length parts - 1).
Proof.
  induction parts as [|a l IH]; intros Hne Hall; [congruence|].
  assert (Ha : a = "") by (apply Hall; left; reflexivity). subst a.
  destruct l as [|b l]; [reflexivity|].
  rewrite PyFacts.join_cons2, IH.
  - simpl. rewrite Nat.sub_0_r. reflexivity.
  - discriminate.
  - intros x Hx. apply Hall. right. exact Hx.
Qed.

(** The two error strings that start with [Error:] are recognised by the
    test of [main]; the string of a caught exception is not, whatever the
    exception: its seventh character is a space, not a colon. *)
Lemma no_key_flagged :
  Py.startswith (Py.lower msg_no_key) "error:" = true.
Proof. reflexivity. Qed.

Lemma no_content_flagged :
  Py.startswith (Py.lower msg_no_content) "error:" = true.
Proof. reflexivity. Qed.

Lemma api_error_not_flagged (e : Py.Exception) :
  Py.startswith (Py.lower (msg_api_error e)) "error:" = false.
Proof. reflexivity. Qed.

(** Whenever the prompt comes from the arguments and the body of
    [call_gemini] raises, the run prints the error string and exits
    with 0. *)
Lemma caught_exception_exit_status (w : World) (e : Py.Exception)
    (s' : State) :
  prompt_parts w <> [] ->
  call_gemini_body w (Py.join " " (prompt_parts w)) (args_model w)
                   (mkState (Py.join " " (prompt_parts w)) [])
  = (Raise e, s') ->
  printed_result w (msg_api_error e) /\ exit_code w = 0%Z.
Proof.
  intros Hp Hb. pose proof (run_args w Hp) as Hd.
  destruct (delivered_printed w _ _ Hd) as [r [Hx Hr]];
    [intros ? []|].
  destruct Hd as [r0 [evs [Hc [_ Hrun]]]].
  rewrite (call_gemini_catches w _ _ _ _ _ Hb) in Hc.
  injection Hc as Hr0 _. subst r0.
  assert (Hpr : printed_result w (msg_api_error e)).
  { unfold printed_result, events. rewrite Hrun. cbn [snd trace app].
    right. apply in_or_app. right. left. reflexivity. }
  split; [exact Hpr|].
  apply Hr in Hpr. subst r. rewrite Hx, api_error_not_flagged. reflexivity.
Qed.

(** ** The properties *)

(** C1 as stated fails. With the single argument [""] the resolved prompt
    is the empty string, and the run does not take the error path: it
    calls the API layer and exits with 0. *)
Lemma empty_argument_reaches_api :
  resolved_prompt (Samples.healthy [""] "") = ""
  /\ events (Samples.healthy [""] "")
     = [EvEnvironGet "GEMINI_API_KEY"; EvConfigure "secret";
        EvGenerativeModel "gemini-1.5-flash-latest";
        EvGenerateContent "gemini-1.5-flash-latest" (system_prompt ++ "");
        EvPrint Stdout "4"]
  /\ exit_code (Samples.healthy [""] "") = 0%Z
  /\ ~ empty_prompt_error_path (Samples.healthy [""] "").
Proof.
  split; [reflexivity|]. split; [reflexivity|]. split; [reflexivity|].
  intros [H _]. vm_compute in H. discriminate.
Qed.

(** C1, amended. With no positional argument, when the prompt resolved
    from standard input is the empty string, the run writes the error
    message and the help text to the error stream, exits with status 1 and
    has no event of the API layer. *)
Theorem empty_stdin_prompt_is_an_error (w : World) :
  prompt_parts w = [] -> resolved_prompt w = "" ->
  empty_prompt_error_path w
  /\ events w = (read_events w ++
                 [EvPrint Stderr
                    "Error: No prompt provided either as argument or via stdin.";
                  EvPrintHelp Stderr])%list
  /\ exit_code w = 1%Z.
Proof.
  intros Hp Hr.
  assert (Hn : no_prompt w).
  { split; [exact Hp|].
    destruct (string_dec (Py.strip (stdin_data w)) "") as [Hs|Hs];
      [exact Hs|].
    pose proof (delivered_prompt w _ _ (run_stdin_text w Hp Hs)). congruence. }
  split; [now apply error_path_iff|].
  unfold events, exit_code. rewrite (run_stdin_blank w Hn). split; reflexivity.
Qed.

Lemma empty_stdin_prompt_is_an_error_witness :
  prompt_parts (Samples.healthy [] "  ") = []
  /\ resolved_prompt (Samples.healthy [] "  ") = ""
  /\ exit_code (Samples.healthy [] "  ") = 1%Z.
Proof.
  split; [reflexivity|]. split; [reflexivity|].
  apply (empty_stdin_prompt_is_an_error (Samples.healthy [] "  "));
    reflexivity.
Defined.

(** C2 at its failing input. The generation call raises
    [Exception("boom")]: the string of the caught exception is printed on
    standard output, and the exit status is 0, not 1. *)
Theorem api_error_result_exits_zero :
  events (Samples.failing "boom" ["hello"])
  = [EvEnvironGet "GEMINI_API_KEY"; EvConfigure "secret";
     EvGenerativeModel "gemini-1.5-flash-latest";
     EvGenerateContent "gemini-1.5-flash-latest"
       (system_prompt ++ "hello");
     EvPrint Stdout "Error calling Gemini API: boom"]
  /\ exit_code (Samples.failing "boom" ["hello"]) = 0%Z.
Proof. split; reflexivity. Qed.

(** C3 as stated fails. The generation call raises an exception whose
    [str] is empty, a bare [Exception()]: the result is the prefix alone,
    followed by no description. *)
Lemma silent_exception_has_no_description :
  genai_generate_content (Samples.failing "" []) "m" (system_prompt ++ "hi")
  = inl (Py.mkException "")
  /\ (exists s', call_gemini_body (Samples.failing "" []) "hi" "m" initial
                 = (Raise (Py.mkException ""), s'))
  /\ fst (call_gemini (Samples.failing "" []) "hi" "m" initial)
     = Return "Error calling Gemini API: "
  /\ ~ (exists d, d <> ""
          /\ fst (call_gemini (Samples.failing "" []) "hi" "m" initial)
             = Return ("Error calling Gemini API: " ++ d)).
Proof.
  split; [reflexivity|].
  split; [eexists; vm_compute; reflexivity|]. split; [reflexivity|].
  intros [d [Hd H]]. cbv in H. injection H as H. congruence.
Qed.

(** C3, amended. [call_gemini] never raises: every call returns a string.
    When an operation of the library raises [e] during the call, be it
    [configure], [GenerativeModel], [generate_content] or the reading of
    the text of the response, the string returned is
    ["Error calling Gemini API: "] followed by [str(e)], a description
    that is empty when [str(e)] is. *)
Theorem call_gemini_never_raises (w : World) (p m : string) (s : State) :
  (exists r s', call_gemini w p m s = (Return r, s'))
  /\ (forall key,
         environ w "GEMINI_API_KEY" = Some key -> key <> "" ->
         (forall e,
             genai_configure w key = Some e ->
             fst (call_gemini w p m s)
             = Return ("Error calling Gemini API: " ++ Py.exc_str e))
         /\ (genai_configure w key = None ->
             (forall e,
                 genai_GenerativeModel w m = Some e ->
                 fst (call_gemini w p m s)
                 = Return ("Error calling Gemini API: " ++ Py.exc_str e))
             /\ (genai_GenerativeModel w m = None ->
                 (forall e,
                     genai_generate_content w m (system_prompt ++ p) = inl e ->
                     fst (call_gemini w p m s)
                     = Return ("Error calling Gemini API: " ++ Py.exc_str e))
                 /\ (forall resp e,
                        genai_generate_content w m (system_prompt ++ p)
                        = inr resp ->
                        candidates resp <> [] -> text resp = inl e ->
                        fst (call_gemini w p m s)
                        = Return ("Error calling Gemini API: "
                                  ++ Py.exc_str e))))).
Proof.
  split.
  - destruct (call_gemini_returns w p m s) as [r [evs [H _]]].
    exists r. eexists. exact H.
  - intros key Hk Hne.
    assert (Ht : Py.truthy key = true)
      by (destruct key; [congruence | reflexivity]).
    pose proof (call_gemini_with_key w p m key s Hk Ht) as Hcall.
    split.
    { intros e Hc. rewrite Hc in Hcall. rewrite Hcall. reflexivity. }
    intros Hc. rewrite Hc in Hcall. split.
    { intros e Hm. rewrite Hm in Hcall. rewrite Hcall. reflexivity. }
    intros Hm. rewrite Hm in Hcall. split.
    { intros e Hg. rewrite Hg in Hcall. rewrite Hcall. reflexivity. }
    intros resp e Hg Hcs Htext. rewrite Hg, Htext in Hcall. rewrite Hcall.
    destruct (candidates resp); [congruence | reflexivity].
Qed.

Lemma call_gemini_never_raises_witness :
  genai_configure (Samples.refusing []) "secret"
  = Some (Py.mkException "bad key")
  /\ fst (call_gemini (Samples.refusing []) "hi" "m" initial)
     = Return "Error calling Gemini API: bad key"
  /\ genai_generate_content (Samples.failing "boom" []) "m"
                            (system_prompt ++ "hi")
     = inl (Py.mkException "boom")
  /\ fst (call_gemini (Samples.failing "boom" []) "hi" "m" initial)
     = Return "Error calling Gemini API: boom".
Proof.
  assert (Hkey : "secret" <> "") by discriminate.
  split; [reflexivity|]. split.
  - exact (proj1 (proj2 (call_gemini_never_raises
                           (Samples.refusing []) "hi" "m" initial)
                        "secret" eq_refl Hkey)
                 (Py.mkException "bad key") eq_refl).
  - split; [reflexivity|].
    exact (proj1 (proj2 (proj2 (proj2 (call_gemini_never_raises
                                         (Samples.failing "boom" [])
                                         "hi" "m" initial)
                                      "secret" eq_refl Hkey)
                               eq_refl)
                        eq_refl)
                 (Py.mkException "boom") eq_refl).
Defined.

(** C4. Without the credential, unset or empty, [call_gemini] returns
    the fixed string, and its only event is the read of the environment:
    the library is neither configured nor called. *)
Theorem missing_key_result (w : World) (p m : string) (s : State) :
  environ w "GEMINI_API_KEY" = None
  \/ environ w "GEMINI_API_KEY" = Some "" ->
  exists evs,
    call_gemini w p m s
    = (Return "Error: GEMINI_API_KEY environment variable not set.",
       extend s evs)
    /\ evs = [EvEnvironGet "GEMINI_API_KEY"]
    /\ existsb is_library_event evs = false.
Proof.
  intros H. exists [EvEnvironGet "GEMINI_API_KEY"].
  split; [|split; reflexivity]. apply call_gemini_no_key.
  destruct H as [-> | ->]; reflexivity.
Qed.

Lemma missing_key_result_witness :
  environ (Samples.keyless ["hi"] "") "GEMINI_API_KEY" = None
  /\ fst (call_gemini (Samples.keyless ["hi"] "") "hi" "m" initial)
     = Return "Error: GEMINI_API_KEY environment variable not set."
  /\ trace (snd (call_gemini (Samples.keyless ["hi"] "") "hi" "m" initial))
     = [EvEnvironGet "GEMINI_API_KEY"].
Proof.
  split; [reflexivity|].
  destruct (missing_key_result (Samples.keyless ["hi"] "") "hi" "m" initial
                               (or_introl eq_refl))
    as [evs [Hc [Hevs _]]].
  rewrite Hc, Hevs. split; reflexivity.
Defined.

(** C5. No exception leaves [main]; the exit status is 0 or 1, and it is
    1 exactly when no prompt could be resolved or the string printed on
    standard output has the prefix ["error:"] up to case. *)
Theorem exit_code_spec (w : World) :
  (forall e, fst (main w initial) <> Raise e)
  /\ (exit_code w = 0%Z \/ exit_code w = 1%Z)
  /\ (exit_code w = 1%Z <->
      no_prompt w
      \/ exists r, printed_result w r /\ caseless_prefix "error:" r).
Proof.
  split.
  { intros e. destruct (main_outcome w) as [H|H]; rewrite H; discriminate. }
  assert (Hlow : Py.lower "error:" = "error:") by reflexivity.
  assert (Hd : forall pre p,
             delivered w pre p ->
             (forall e, In e pre -> is_result_print e = false) ->
             ~ no_prompt w ->
             (exit_code w = 0%Z \/ exit_code w = 1%Z)
             /\ (exit_code w = 1%Z <->
                 no_prompt w
                 \/ exists r, printed_result w r
                              /\ caseless_prefix "error:" r)).
  { intros pre p Hdel Hpre Hno.
    destruct (delivered_printed w pre p Hdel Hpre) as [r [Hx Hr]].
    pose proof (PyFacts.startswith_lower_iff r "error:" Hlow) as Hiff.
    destruct (Py.startswith (Py.lower r) "error:") eqn:Hb; rewrite Hx.
    - split; [right; reflexivity|]. split; [|reflexivity].
      intros _. right. exists r. split; [now apply Hr | now apply Hiff].
    - split; [left; reflexivity|]. split; [discriminate|].
      intros [H|[r' [Hp Hc]]]; [contradiction|].
      apply Hr in Hp. subst r'. apply Hiff in Hc. discriminate. }
  destruct (run_cases w) as [Hn|[[Hp H]|[Hp [Hs H]]]].
  - unfold exit_code. rewrite (run_stdin_blank w Hn). cbn [fst].
    split; [right; reflexivity|]. split; [auto | reflexivity].
  - apply (Hd _ _ H); [intros ? []|]. intros [Hp' _]. contradiction.
  - apply (Hd _ _ H).
    + intros e He. now apply (read_events_kinds w e).
    + intros [_ Hs']. contradiction.
Qed.

Lemma exit_code_spec_witness :
  printed_result (Samples.keyless ["hi"] "")
                 "Error: GEMINI_API_KEY environment variable not set."
  /\ exit_code (Samples.keyless ["hi"] "") = 1%Z.
Proof.
  assert (H : printed_result
                (Samples.keyless ["hi"] "")
                "Error: GEMINI_API_KEY environment variable not set.").
  { right. left. reflexivity. }
  split; [exact H|].
  apply (proj2 (proj2 (exit_code_spec (Samples.keyless ["hi"] "")))).
  right. eexists. split; [exact H|].
  exists "Error:", " GEMINI_API_KEY environment variable not set.".
  split; reflexivity.
Defined.

(** C6. With at least one positional argument the resolved prompt is the
    arguments joined by single spaces, and the run has no event on
    standard input. *)
Theorem arguments_are_joined (w : World) :
  prompt_parts w <> [] ->
  resolved_prompt w = Py.join " " (prompt_parts w)
  /\ existsb is_stdin_event (events w) = false.
Proof.
  intros Hp. pose proof (run_args w Hp) as Hd.
  split; [exact (delivered_prompt w _ _ Hd)|].
  destruct (delivered_events w _ _ Hd) as [r [evs [Hev Hlib]]].
  rewrite Hev. apply existsb_none. intros x [<-|Hx]; [reflexivity|].
  apply in_app_or in Hx. destruct Hx as [Hx|[<-|[]]]; [|reflexivity].
  now apply (library_event_kinds evs x Hlib).
Qed.

Lemma arguments_are_joined_witness :
  prompt_parts (Samples.healthy ["What"; "is"; "2+2?"] "ignored") <> []
  /\ resolved_prompt (Samples.healthy ["What"; "is"; "2+2?"] "ignored")
     = "What is 2+2?".
Proof.
  split; [discriminate|].
  apply (arguments_are_joined
           (Samples.healthy ["What"; "is"; "2+2?"] "ignored")).
  discriminate.
Defined.

(** C7. With no positional argument and a non-empty standard input, the
    resolved prompt is the input stripped, and that is the one string
    which is the input without its leading and trailing whitespace. *)
Theorem stdin_is_trimmed (w : World) :
  prompt_parts w = [] -> stdin_data w <> "" ->
  resolved_prompt w = Py.strip (stdin_data w)
  /\ trimmed_of (stdin_data w) (resolved_prompt w)
  /\ (forall t, trimmed_of (stdin_data w) t -> t = resolved_prompt w).
Proof.
  intros Hp _.
  assert (H : resolved_prompt w = Py.strip (stdin_data w)).
  { destruct (string_dec (Py.strip (stdin_data w)) "") as [Hs|Hs].
    - unfold resolved_prompt.
      rewrite (run_stdin_blank w (conj Hp Hs)), Hs. reflexivity.
    - exact (delivered_prompt w _ _ (run_stdin_text w Hp Hs)). }
  split; [exact H|]. rewrite H. split; [apply PyFacts.strip_trimmed|].
  intros t Ht. now apply PyFacts.trimmed_unique.
Qed.

Lemma stdin_is_trimmed_witness :
  prompt_parts (Samples.healthy [] ("  list  files " ++ Py.nl)) = []
  /\ stdin_data (Samples.healthy [] ("  list  files " ++ Py.nl)) <> ""
  /\ resolved_prompt (Samples.healthy [] ("  list  files " ++ Py.nl))
     = "list  files".
Proof.
  assert (Hne : stdin_data (Samples.healthy [] ("  list  files " ++ Py.nl))
                <> "") by discriminate.
  split; [reflexivity|]. split; [exact Hne|].
  exact (proj1 (stdin_is_trimmed
                  (Samples.healthy [] ("  list  files " ++ Py.nl))
                  eq_refl Hne)).
Defined.

(** C8. When the credential is set and the library returns a response,
    [call_gemini] returns the fixed string if the response has no
    candidate, and otherwise the text of the response stripped of its
    surrounding whitespace. *)
Theorem response_to_result (w : World) (p m key : string) (s : State)
    (resp : Response) :
  environ w "GEMINI_API_KEY" = Some key -> key <> "" ->
  genai_configure w key = None ->
  genai_GenerativeModel w m = None ->
  genai_generate_content w m (system_prompt ++ p) = inr resp ->
  (candidates resp = [] ->
   call_gemini w p m s
   = (Return "Error: No content generated (check safety settings or prompt).",
      extend s (request_events key p m)))
  /\ (candidates resp <> [] ->
      forall t, text resp = inr t ->
                call_gemini w p m s
                = (Return (Py.strip t), extend s (request_events key p m))
                /\ trimmed_of t (Py.strip t)).
Proof.
  intros Hk Hne Hc Hm Hg.
  assert (Ht : Py.truthy key = true) by (destruct key; [congruence | reflexivity]).
  pose proof (call_gemini_body_response w p m key s resp Hk Ht Hc Hm Hg) as Hb.
  split.
  - intros He. rewrite He in Hb. exact (call_gemini_passes w _ _ _ _ _ Hb).
  - intros He t Htext. split; [|apply PyFacts.strip_trimmed].
    destruct (candidates resp); [congruence|]. rewrite Htext in Hb.
    exact (call_gemini_passes w _ _ _ _ _ Hb).
Qed.

Lemma response_to_result_witness :
  fst (call_gemini (Samples.blocked []) "hi" "m" initial)
  = Return "Error: No content generated (check safety settings or prompt)."
  /\ fst (call_gemini (Samples.healthy [] "") "hi" "m" initial) = Return "4".
Proof.
  assert (Hkey : "secret" <> "") by discriminate.
  split.
  - rewrite (proj1 (response_to_result
                      (Samples.blocked []) "hi" "m" "secret" initial
                      (mkResponse [] (inl (Py.mkException "no valid part")))
                      eq_refl Hkey eq_refl eq_refl eq_refl) eq_refl).
    reflexivity.
  - assert (Hc : [" 4 "] <> @nil string) by discriminate.
    rewrite (proj1 (proj2 (response_to_result
                             (Samples.healthy [] "") "hi" "m" "secret" initial
                             (mkResponse [" 4 "] (inr " 4 "))
                             eq_refl Hkey eq_refl eq_refl eq_refl)
                          Hc " 4 " eq_refl)).
    reflexivity.
Defined.

(** C9. The events of a call of [call_gemini] follow the events before
    it; every generation call among them is for the model asked and
    carries the preamble followed by the prompt, and there is one as soon
    as the credential is set and the library accepts the key and the
    model name. *)
Theorem request_text (w : World) (p m : string) (s : State) :
  exists evs,
    trace (snd (call_gemini w p m s)) = (trace s ++ evs)%list
    /\ (forall m' t,
           In (EvGenerateContent m' t) evs ->
           m' = m
           /\ t = ("Context: Linux. Provide a concise response:" ++ Py.nl)
                  ++ p)
    /\ (forall key,
           environ w "GEMINI_API_KEY" = Some key -> key <> "" ->
           genai_configure w key = None ->
           genai_GenerativeModel w m = None ->
           In (EvGenerateContent
                 m (("Context: Linux. Provide a concise response:" ++ Py.nl)
                    ++ p)) evs).
Proof.
  destruct (call_gemini_returns w p m s) as [r [evs [Hc [Hlib Hreq]]]].
  exists (EvEnvironGet "GEMINI_API_KEY" :: evs).
  split; [rewrite Hc; reflexivity|]. split.
  - intros m' t [H|H]; [discriminate | exact (Hreq m' t H)].
  - intros key Hk Hne Hcf Hm.
    assert (Ht : Py.truthy key = true)
      by (destruct key; [congruence | reflexivity]).
    assert (Hs : snd (call_gemini w p m s)
                 = extend s (request_events key p m)).
    { destruct (genai_generate_content w m (system_prompt ++ p))
        as [e|resp] eqn:Hg.
      - rewrite (call_gemini_catches w _ _ _ _ _
                   (call_gemini_body_generate_raises
                      w p m key s e Hk Ht Hcf Hm Hg)).
        reflexivity.
      - pose proof (call_gemini_body_response
                      w p m key s resp Hk Ht Hcf Hm Hg) as Hb.
        destruct (candidates resp);
          [rewrite (call_gemini_passes w _ _ _ _ _ Hb); reflexivity|].
        destruct (text resp);
          [rewrite (call_gemini_catches w _ _ _ _ _ Hb)
          |rewrite (call_gemini_passes w _ _ _ _ _ Hb)]; reflexivity. }
    rewrite Hc in Hs. cbn [snd] in Hs. unfold extend in Hs.
    injection Hs as Hs. apply app_inv_head in Hs.
    rewrite Hs. right. right. right. left. reflexivity.
Qed.

Lemma request_text_witness :
  In (EvGenerateContent
        "m" ("Context: Linux. Provide a concise response:" ++ Py.nl
             ++ "show all files"))
     (trace (snd (call_gemini (Samples.healthy [] "") "show all files" "m"
                              initial))).
Proof.
  destruct (request_text (Samples.healthy [] "") "show all files" "m" initial)
    as [evs [Ht [_ Hin]]].
  rewrite Ht. apply in_or_app. right.
  assert (Hkey : "secret" <> "") by discriminate.
  exact (Hin "secret" eq_refl Hkey eq_refl eq_refl).
Defined.

(** C10 as stated fails. Two empty arguments are joined to one space: the
    list is non-empty and all its elements are empty strings, yet the
    prompt given to [call_gemini] is not the empty string. *)
Lemma two_empty_arguments_join_to_a_space :
  prompt_parts (Samples.healthy [""; ""] "") <> []
  /\ (forall x, In x (prompt_parts (Samples.healthy [""; ""] "")) -> x = "")
  /\ resolved_prompt (Samples.healthy [""; ""] "") = " "
  /\ calls_gemini_with (Samples.healthy [""; ""] "") " "
  /\ ~ calls_gemini_with (Samples.healthy [""; ""] "") "".
Proof.
  split; [discriminate|]. split; [intros x [<-|[<-|[]]]; reflexivity|].
  split; [reflexivity|]. split; [reflexivity|].
  intros H. vm_compute in H. discriminate.
Qed.

(** C10, amended. When the positional arguments are [n] empty strings,
    [n] at least 1, the run does not take the error path of the empty
    prompt and writes nothing to the error stream: it goes on to call
    [call_gemini], its first event being the read of the credential, with
    the joined prompt, which is [n - 1] spaces and so the empty string
    exactly for the single argument [""]. *)
Theorem empty_arguments_skip_the_check (w : World) :
  prompt_parts w <> [] ->
  (forall x, In x (prompt_parts w) -> x = "") ->
  calls_gemini_with w (spaces (List.length (prompt_parts w) - 1))
  /\ ~ empty_prompt_error_path w
  /\ existsb is_stderr_event (events w) = false
  /\ hd_error (events w) = Some (EvEnvironGet "GEMINI_API_KEY")
  /\ (resolved_prompt w = "" <-> prompt_parts w = [""]).
Proof.
  intros Hp Hall. pose proof (run_args w Hp) as Hd.
  pose proof (join_all_empty _ Hp Hall) as Hj.
  split; [|split; [|split; [|split]]].
  - unfold calls_gemini_with. rewrite <- Hj. apply main_args. exact Hp.
  - intros H. apply error_path_iff in H. destruct H as [H _]. contradiction.
  - destruct (delivered_events w _ _ Hd) as [r [evs [Hev Hlib]]].
    rewrite Hev. apply existsb_none. intros x [<-|Hx]; [reflexivity|].
    apply in_app_or in Hx. destruct Hx as [Hx|[<-|[]]]; [|reflexivity].
    now apply (library_event_kinds evs x Hlib).
  - destruct (delivered_events w _ _ Hd) as [r [evs [Hev _]]].
    rewrite Hev. reflexivity.
  - rewrite (delivered_prompt w _ _ Hd).
    exact (PyFacts.join_space_empty _ Hp).
Qed.

Lemma empty_arguments_skip_the_check_witness :
  prompt_parts (Samples.healthy [""] "piped") <> []
  /\ calls_gemini_with (Samples.healthy [""] "piped") ""
  /\ calls_gemini_with (Samples.healthy [""; ""; ""] "piped") "  ".
Proof.
  assert (H1 : prompt_parts (Samples.healthy [""] "piped") <> [])
    by discriminate.
  assert (H3 : prompt_parts (Samples.healthy [""; ""; ""] "piped") <> [])
    by discriminate.
  split; [exact H1|]. split.
  - apply (empty_arguments_skip_the_check (Samples.healthy [""] "piped") H1).
    intros x [<-|[]]. reflexivity.
  - apply (empty_arguments_skip_the_check
             (Samples.healthy [""; ""; ""] "piped") H3).
    intros x [<-|[<-|[<-|[]]]]; reflexivity.
Defined.

(** ** Further properties of [call_gemini] and [main] *)

Section MoreRuns.

Variable w : World.

Lemma prelude_args : prompt_parts w <> [] -> prelude w = [].
Proof. unfold prelude. destruct (prompt_parts w); [congruence | reflexivity]. Qed.

Lemma prelude_stdin : prompt_parts w = [] -> prelude w = read_events w.
Proof. unfold prelude. now intros ->. Qed.

(** A run that resolves a prompt reaches the call of [call_gemini]. *)
Lemma run_delivered :
  ~ no_prompt w -> delivered w (prelude w) (resolved_prompt w).
Proof.
  intros Hn.
  destruct (run_cases w) as [H|[[Hp H]|[Hp [Hs H]]]]; [contradiction| |];
    rewrite (delivered_prompt w _ _ H).
  - rewrite (prelude_args Hp). exact H.
  - rewrite (prelude_stdin Hp). exact H.
Qed.

(** The run, from what the call returns and does. *)
Lemma run_of_call (r : string) (evs : list Event) :
  ~ no_prompt w ->
  call_gemini w (resolved_prompt w) (args_model w)
              (mkState (resolved_prompt w) (prelude w))
  = (Return r, extend (mkState (resolved_prompt w) (prelude w)) evs) ->
  run w = ((if flagged r then 1 else 0)%Z,
           mkState (resolved_prompt w)
                   (prelude w ++ evs ++ [EvPrint Stdout r])).
Proof.
  intros Hn Hc. destruct (run_delivered Hn) as [r' [evs' [Hc' [_ Hrun]]]].
  rewrite Hc in Hc'. unfold extend in Hc'. cbn [v_prompt trace] in Hc'.
  injection Hc' as Hr Hevs. apply app_inv_head in Hevs. subst r' evs.
  exact Hrun.
Qed.

(** The events of any run. *)
Lemma events_cases :
  (no_prompt w
   /\ events w = (read_events w ++ [EvPrint Stderr msg_no_prompt;
                                    EvPrintHelp Stderr])%list
   /\ exit_code w = 1%Z)
  \/ (~ no_prompt w
      /\ exists r evs,
           events w = (prelude w ++ EvEnvironGet "GEMINI_API_KEY" :: evs
                       ++ [EvPrint Stdout r])%list
           /\ exit_code w = (if flagged r then 1 else 0)%Z
           /\ fst (call_gemini w (resolved_prompt w) (args_model w)
                               (mkState (resolved_prompt w) (prelude w)))
              = Return r
           /\ ((Py.truthy_opt (environ w "GEMINI_API_KEY") = false
                /\ evs = [] /\ r = msg_no_key)
               \/ exists key n,
                    environ w "GEMINI_API_KEY" = Some key
                    /\ Py.truthy key = true
                    /\ (1 <= n <= 3)%nat
                    /\ evs = firstn n (library_events
                                         key (resolved_prompt w)
                                         (args_model w)))).
Proof.
  destruct (run_cases w) as [H|H].
  - left. split; [exact H|]. unfold events, exit_code.
    rewrite (run_stdin_blank w H). split; reflexivity.
  - right.
    assert (Hn : ~ no_prompt w).
    { intros [Hp Hs]. destruct H as [[H _]|[_ [H _]]]; contradiction. }
    split; [exact Hn|].
    destruct (call_gemini_trace w (resolved_prompt w) (args_model w)
                (mkState (resolved_prompt w) (prelude w)))
      as [r [evs [Hc Hk]]].
    exists r, evs. unfold events, exit_code.
    rewrite (run_of_call r _ Hn Hc), Hc. cbn [fst snd trace app].
    repeat split; auto.
Qed.

End MoreRuns.

(** *** Auxiliary facts *)

Lemma filter_none {A : Type} (f : A -> bool) (l : list A) :
  (forall x, In x l -> f x = false) -> filter f l = [].
Proof.
  induction l as [|a l IH]; intros H; simpl; [reflexivity|].
  rewrite (H a (or_introl eq_refl)). apply IH.
  intros x Hx. apply H. right. exact Hx.
Qed.

Lemma filter_all {A : Type} (f : A -> bool) (l : list A) :
  (forall x, In x l -> f x = true) -> filter f l = l.
Proof.
  induction l as [|a l IH]; intros H; simpl; [reflexivity|].
  rewrite (H a (or_introl eq_refl)). f_equal. apply IH.
  intros x Hx. apply H. right. exact Hx.
Qed.

Lemma all_space_app (a b : string) :
  all_space (a ++ b) = all_space a && all_space b.
Proof.
  induction a as [|c a IH]; simpl; [reflexivity|].
  now rewrite IH, andb_assoc.
Qed.

(** [strip] leaves nothing exactly of the strings that are whitespace
    throughout, the empty string among them. *)
Lemma strip_empty_iff (s : string) :
  Py.strip s = "" <-> all_space s = true.
Proof.
  split.
  - intros H. destruct (PyFacts.strip_trimmed s) as [[l [r [Hs [Hl Hr]]]] _].
    rewrite H in Hs. simpl in Hs. rewrite Hs, all_space_app, Hl, Hr.
    reflexivity.
  - intros H. unfold Py.strip. now rewrite (PyFacts.lstrip_all_space s H).
Qed.

Lemma in_firstn {A : Type} (n : nat) (l : list A) (x : A) :
  In x (firstn n l) -> In x l.
Proof.
  revert l. induction n as [|n IH]; intros l H; [destruct H|].
  destruct l as [|a l]; [destruct H|].
  destruct H as [H|H]; [left; exact H | right; exact (IH _ H)].
Qed.

Lemma library_events_kinds (key p m : string) (n : nat) (e : Event) :
  In e (firstn n (library_events key p m)) ->
  is_library_event e = true.
Proof.
  intros H. apply in_firstn in H. unfold library_events in H.
  destruct H as [<-|[<-|[<-|[]]]]; reflexivity.
Qed.

Lemma prelude_kinds (w : World) (e : Event) :
  In e (prelude w) -> is_result_print e = false /\ is_api_event e = false.
Proof.
  unfold prelude. destruct (prompt_parts w); [|intros []].
  apply read_events_kinds.
Qed.

(** An event that is neither of the API layer nor a print on standard
    output is in a run only as part of the reading of standard input or
    as one of the two events of the error path. *)
Lemma other_event_in (w : World) (e : Event) :
  is_api_event e = false -> is_result_print e = false ->
  (In e (events w) <->
   In e (prelude w)
   \/ (no_prompt w
       /\ In e [EvPrint Stderr msg_no_prompt; EvPrintHelp Stderr])).
Proof.
  intros Hapi Hres.
  destruct (events_cases w) as [[Hn [Hev _]]|[Hn [r [evs [Hev [_ [_ Hk]]]]]]];
    rewrite Hev.
  - rewrite <- (prelude_stdin w (proj1 Hn)). split.
    + intros H. apply in_app_or in H. destruct H; auto.
    + intros [H|[_ H]]; apply in_or_app; auto.
  - split.
    + intros H. apply in_app_or in H. destruct H as [H|[<-|H]];
        [left; exact H | discriminate |].
      apply in_app_or in H. destruct H as [H|[<-|[]]]; [|discriminate].
      destruct Hk as [[_ [-> _]]|[key [n [_ [_ [_ ->]]]]]]; [destruct H|].
      apply library_events_kinds in H.
      destruct e as [[] ?|[]| | | | | |]; discriminate.
    + intros [H|[H _]]; [apply in_or_app; left; exact H | contradiction].
Qed.

(** *** What a run writes, and where *)

(** X1. The hint is written to the error stream exactly when there is no
    positional argument and standard input is a terminal.  Without
    arguments [isatty] is always asked first; on a terminal the hint
    comes before the read, otherwise the read follows at once. *)
Theorem hint_only_on_terminal (w : World) :
  (In (EvPrint Stderr msg_hint) (events w) <->
   prompt_parts w = [] /\ stdin_isatty w = true)
  /\ (prompt_parts w = [] -> stdin_isatty w = true ->
      firstn 3 (events w)
      = [EvIsatty; EvPrint Stderr msg_hint; EvStdinRead])
  /\ (prompt_parts w = [] -> stdin_isatty w = false ->
      firstn 2 (events w) = [EvIsatty; EvStdinRead]).
Proof.
  assert (Hstart : prompt_parts w = [] ->
                   exists rest, events w = (read_events w ++ rest)%list).
  { intros Hp.
    destruct (events_cases w) as [[_ [Hev _]]|[_ [r [evs [Hev _]]]]];
      rewrite Hev; [|rewrite (prelude_stdin w Hp)]; eexists; reflexivity. }
  split; [|split].
  - rewrite (other_event_in w (EvPrint Stderr msg_hint) eq_refl eq_refl).
    split.
    + intros [H|[_ [H|[H|[]]]]]; try discriminate.
      unfold prelude, read_events in H.
      destruct (prompt_parts w); [|destruct H]. split; [reflexivity|].
      destruct (stdin_isatty w); [reflexivity|].
      destruct H as [H|[H|[]]]; discriminate.
    + intros [Hp Ht]. left. rewrite (prelude_stdin w Hp).
      unfold read_events. rewrite Ht. right. left. reflexivity.
  - intros Hp Ht. destruct (Hstart Hp) as [rest ->].
    unfold read_events. rewrite Ht. reflexivity.
  - intros Hp Ht. destruct (Hstart Hp) as [rest ->].
    unfold read_events. rewrite Ht. reflexivity.
Qed.

Lemma hint_only_on_terminal_witness :
  In (EvPrint Stderr msg_hint) (events (Samples.terminal "list files"))
  /\ firstn 3 (events (Samples.terminal "list files"))
     = [EvIsatty; EvPrint Stderr msg_hint; EvStdinRead].
Proof.
  split.
  - apply (proj1 (hint_only_on_terminal (Samples.terminal "list files"))).
    split; reflexivity.
  - apply (proj1 (proj2 (hint_only_on_terminal
                           (Samples.terminal "list files")))); reflexivity.
Defined.

(** X2. The error stream is used exactly when there is no positional
    argument and standard input is a terminal or holds nothing but
    whitespace; what goes to it is the hint, the message of the missing
    prompt or the help text, nothing else. *)
Theorem stderr_use (w : World) :
  (existsb is_stderr_event (events w) = true <->
   prompt_parts w = []
   /\ (stdin_isatty w = true \/ Py.strip (stdin_data w) = ""))
  /\ (forall e, In e (events w) -> is_stderr_event e = true ->
                e = EvPrint Stderr msg_hint
                \/ e = EvPrint Stderr msg_no_prompt
                \/ e = EvPrintHelp Stderr).
Proof.
  assert (Hkind : forall e, is_stderr_event e = true ->
                            is_api_event e = false
                            /\ is_result_print e = false).
  { intros [[] ?|[]| | | | | |]; simpl; intros H; try discriminate; auto. }
  assert (Hpre : forall e, In e (prelude w) -> is_stderr_event e = true ->
                           e = EvPrint Stderr msg_hint
                           /\ prompt_parts w = [] /\ stdin_isatty w = true).
  { intros e H He. unfold prelude, read_events in H.
    destruct (prompt_parts w); [|destruct H].
    destruct (stdin_isatty w); simpl in H;
      repeat (destruct H as [<-|H]; [try discriminate; auto|]);
      destruct H. }
  split.
  - rewrite existsb_exists. split.
    + intros [e [Hin He]]. destruct (Hkind e He) as [Ha Hr].
      apply (other_event_in w e Ha Hr) in Hin.
      destruct Hin as [Hin|[[Hp Hs] _]]; [|auto].
      destruct (Hpre e Hin He) as [_ [Hp Ht]]. auto.
    + intros [Hp [Ht|Hs]].
      * exists (EvPrint Stderr msg_hint). split; [|reflexivity].
        apply (proj1 (hint_only_on_terminal w)). auto.
      * exists (EvPrintHelp Stderr). split; [|reflexivity].
        apply (other_event_in w (EvPrintHelp Stderr) eq_refl eq_refl). right.
        split; [split; assumption|]. right. left. reflexivity.
  - intros e Hin He. destruct (Hkind e He) as [Ha Hr].
    apply (other_event_in w e Ha Hr) in Hin.
    destruct Hin as [Hin|[_ [<-|[<-|[]]]]]; auto.
    left. exact (proj1 (Hpre e Hin He)).
Qed.

Lemma stderr_use_witness :
  existsb is_stderr_event (events (Samples.healthy [] "   ")) = true
  /\ existsb is_stderr_event (events (Samples.healthy ["hi"] "   ")) = false.
Proof.
  split.
  - apply (proj1 (stderr_use (Samples.healthy [] "   "))).
    split; [reflexivity | right; reflexivity].
  - destruct (existsb is_stderr_event (events (Samples.healthy ["hi"] "   ")))
      eqn:E; [|reflexivity].
    apply (proj1 (stderr_use (Samples.healthy ["hi"] "   "))) in E.
    destruct E as [E _]. discriminate E.
Defined.

(** X3. A run that resolves no prompt prints nothing on standard output;
    every other run prints exactly one string there, the one
    [call_gemini] returned, and that print is its last event. *)
Theorem stdout_once (w : World) :
  (no_prompt w -> filter is_result_print (events w) = [])
  /\ (~ no_prompt w ->
      exists r,
        fst (call_gemini w (resolved_prompt w) (args_model w)
                         (mkState (resolved_prompt w) (prelude w)))
        = Return r
        /\ filter is_result_print (events w) = [EvPrint Stdout r]
        /\ last (events w) EvIsatty = EvPrint Stdout r).
Proof.
  destruct (events_cases w) as [[Hn [Hev _]]|[Hn [r [evs [Hev [_ [Hc Hk]]]]]]].
  - split; [|contradiction]. intros _. rewrite Hev, filter_app.
    rewrite (filter_none _ (read_events w)); [reflexivity|].
    intros x Hx. exact (proj1 (read_events_kinds w x Hx)).
  - split; [contradiction|]. intros _. exists r. split; [exact Hc|].
    rewrite Hev. split.
    + rewrite filter_app, (filter_none _ (prelude w));
        [|intros x Hx; exact (proj1 (prelude_kinds w x Hx))].
      cbn [app filter is_result_print]. rewrite filter_app.
      rewrite (filter_none _ evs); [reflexivity|].
      intros x Hx.
      destruct Hk as [[_ [-> _]]|[key [n [_ [_ [_ ->]]]]]]; [destruct Hx|].
      apply library_events_kinds in Hx.
      destruct x as [[] ?|[]| | | | | |]; try discriminate; reflexivity.
    + change (EvEnvironGet "GEMINI_API_KEY" :: evs ++ [EvPrint Stdout r])%list
        with ((EvEnvironGet "GEMINI_API_KEY" :: evs) ++ [EvPrint Stdout r])%list.
      rewrite app_assoc. apply last_last.
Qed.

Lemma stdout_once_witness :
  filter is_result_print (events (Samples.healthy [] "  ")) = []
  /\ exists r,
       filter is_result_print (events (Samples.healthy ["hi"] ""))
       = [EvPrint Stdout r].
Proof.
  split.
  - apply (proj1 (stdout_once (Samples.healthy [] "  "))). split; reflexivity.
  - assert (Hn : ~ no_prompt (Samples.healthy ["hi"] ""))
      by (intros [H _]; discriminate H).
    destruct (proj2 (stdout_once (Samples.healthy ["hi"] "")) Hn)
      as [r [_ [H _]]].
    exists r. exact H.
Defined.

(** X4. Without positional arguments the run takes the error path of the
    missing prompt exactly when standard input holds nothing but
    whitespace (nothing at all included), and then its exit status
    is 1. *)
Theorem blank_stdin_is_no_prompt (w : World) :
  prompt_parts w = [] ->
  (empty_prompt_error_path w <-> all_space (stdin_data w) = true)
  /\ (all_space (stdin_data w) = true -> exit_code w = 1%Z)
  /\ (all_space (stdin_data w) = false ->
      hd_error (filter is_api_event (events w))
      = Some (EvEnvironGet "GEMINI_API_KEY")).
Proof.
  intros Hp.
  assert (Hiff : no_prompt w <-> all_space (stdin_data w) = true).
  { unfold no_prompt. rewrite strip_empty_iff. tauto. }
  split; [|split].
  - rewrite error_path_iff. exact Hiff.
  - intros H. apply Hiff in H. apply error_path_iff in H. exact (proj1 H).
  - intros H.
    destruct (events_cases w) as [[Hn _]|[_ [r [evs [Hev _]]]]].
    + apply Hiff in Hn. congruence.
    + rewrite Hev, filter_app, (filter_none _ (prelude w));
        [reflexivity|].
      intros x Hx. exact (proj2 (prelude_kinds w x Hx)).
Qed.

Lemma blank_stdin_is_no_prompt_witness :
  prompt_parts (Samples.healthy [] (" " ++ Py.nl)) = []
  /\ all_space (stdin_data (Samples.healthy [] (" " ++ Py.nl))) = true
  /\ exit_code (Samples.healthy [] (" " ++ Py.nl)) = 1%Z.
Proof.
  split; [reflexivity|]. split; [reflexivity|].
  apply (proj1 (proj2 (blank_stdin_is_no_prompt
                         (Samples.healthy [] (" " ++ Py.nl)) eq_refl))).
  reflexivity.
Defined.

(** X5. With positional arguments the run does not depend on standard
    input: whatever standard input is, terminal or not, the exit
    status, the prompt and the events are the same. *)
Theorem arguments_ignore_stdin (w : World) (tty : bool) (data : string) :
  prompt_parts w <> [] ->
  run (with_stdin w tty data) = run w.
Proof.
  intros Hp. unfold run.
  rewrite (main_args w initial Hp).
  rewrite (main_args (with_stdin w tty data) initial Hp).
  reflexivity.
Qed.

Lemma arguments_ignore_stdin_witness :
  prompt_parts (Samples.healthy ["hi"] "") <> []
  /\ run (with_stdin (Samples.healthy ["hi"] "") true "something else")
     = run (Samples.healthy ["hi"] "").
Proof.
  assert (H : prompt_parts (Samples.healthy ["hi"] "") <> [])
    by discriminate.
  split; [exact H|].
  exact (arguments_ignore_stdin (Samples.healthy ["hi"] "") true
                                "something else" H).
Defined.

(** *** What a run asks of the library *)

(** X6. In any run, every model is created with [args.model], and every
    generation call is for that model and carries the preamble followed
    by the resolved prompt: the joined arguments, or standard input
    stripped. *)
Theorem run_request (w : World) :
  (forall m, In (EvGenerativeModel m) (events w) -> m = args_model w)
  /\ (forall m t,
         In (EvGenerateContent m t) (events w) ->
         m = args_model w
         /\ t = ("Context: Linux. Provide a concise response:" ++ Py.nl)
                ++ resolved_prompt w)
  /\ (flag_model w = None -> args_model w = "gemini-1.5-flash-latest").
Proof.
  assert (Hlib : forall e, is_library_event e = true ->
                   In e (events w) ->
                   exists key n,
                     In e (firstn n (library_events
                                       key (resolved_prompt w)
                                       (args_model w)))).
  { intros e He Hin.
    destruct (events_cases w) as [[_ [Hev _]]|[_ [r [evs [Hev [_ [_ Hk]]]]]]];
      rewrite Hev in Hin; apply in_app_or in Hin.
    - destruct Hin as [Hin|[<-|[<-|[]]]]; try discriminate.
      apply read_events_kinds in Hin. destruct Hin as [_ Hin].
      destruct e; discriminate.
    - destruct Hin as [Hin|[<-|Hin]]; [|discriminate|].
      + apply prelude_kinds in Hin. destruct Hin as [_ Hin].
        destruct e; discriminate.
      + apply in_app_or in Hin. destruct Hin as [Hin|[<-|[]]]; [|discriminate].
        destruct Hk as [[_ [-> _]]|[key [n [_ [_ [_ ->]]]]]]; [destruct Hin|].
        exists key, n. exact Hin. }
  split; [|split].
  - intros m Hin.
    destruct (Hlib (EvGenerativeModel m) eq_refl Hin) as [key [n H]].
    apply in_firstn in H. unfold library_events in H.
    destruct H as [H|[H|[H|[]]]]; try discriminate. congruence.
  - intros m t Hin.
    destruct (Hlib (EvGenerateContent m t) eq_refl Hin) as [key [n H]].
    apply in_firstn in H. unfold library_events in H.
    destruct H as [H|[H|[H|[]]]]; try discriminate.
    injection H as H1 H2. split; symmetry; assumption.
  - unfold args_model. now intros ->.
Qed.

Lemma run_request_witness :
  In (EvGenerateContent
        "gemini-1.5-flash-latest"
        ("Context: Linux. Provide a concise response:" ++ Py.nl
         ++ "list files"))
     (events (Samples.healthy [] ("  list files" ++ Py.nl)))
  /\ ("Context: Linux. Provide a concise response:" ++ Py.nl
      ++ "list files")
     = ("Context: Linux. Provide a concise response:" ++ Py.nl)
       ++ resolved_prompt (Samples.healthy [] ("  list files" ++ Py.nl)).
Proof.
  assert (Hin : In (EvGenerateContent
                      "gemini-1.5-flash-latest"
                      ("Context: Linux. Provide a concise response:"
                       ++ Py.nl ++ "list files"))
                   (events (Samples.healthy [] ("  list files" ++ Py.nl)))).
  { vm_compute. do 5 right. left. reflexivity. }
  split; [exact Hin|].
  exact (proj2 (proj1 (proj2 (run_request
                                (Samples.healthy
                                   [] ("  list files" ++ Py.nl))))
                      _ _ Hin)).
Defined.

(** X7. In any run the library is only ever configured with the value
    of [GEMINI_API_KEY] in the environment, and that value is then not
    empty: [configure] is never called without a credential. *)
Theorem credential_use (w : World) (k : string) :
  In (EvConfigure k) (events w) ->
  environ w "GEMINI_API_KEY" = Some k /\ k <> "".
Proof.
  intros Hin.
  destruct (events_cases w) as [[_ [Hev _]]|[_ [r [evs [Hev [_ [_ Hk]]]]]]];
    rewrite Hev in Hin; apply in_app_or in Hin.
  - destruct Hin as [Hin|[Hin|[Hin|[]]]]; try discriminate.
    apply read_events_kinds in Hin. destruct Hin as [_ Hin]. discriminate.
  - destruct Hin as [Hin|[Hin|Hin]]; [|discriminate|].
    + apply prelude_kinds in Hin. destruct Hin as [_ Hin]. discriminate.
    + apply in_app_or in Hin. destruct Hin as [Hin|[Hin|[]]]; [|discriminate].
      destruct Hk as [[_ [-> _]]|[key [n [Hkey [Ht [_ ->]]]]]];
        [destruct Hin|].
      apply in_firstn in Hin. unfold library_events in Hin.
      destruct Hin as [E|[E|[E|[]]]]; try discriminate.
      injection E as ->. split; [exact Hkey|]. intros ->. discriminate.
Qed.

Lemma credential_use_witness :
  In (EvConfigure "secret") (events (Samples.healthy ["hi"] ""))
  /\ environ (Samples.healthy ["hi"] "") "GEMINI_API_KEY" = Some "secret".
Proof.
  assert (Hin : In (EvConfigure "secret")
                   (events (Samples.healthy ["hi"] ""))).
  { vm_compute. right. left. reflexivity. }
  split; [exact Hin|].
  exact (proj1 (credential_use (Samples.healthy ["hi"] "") "secret" Hin)).
Defined.

(** X8. The API layer acts at most once in a run and in one order: the
    read of the credential, [configure], [GenerativeModel],
    [generate_content].  The events of the API layer are the first [n]
    of these four, [n] being 0 exactly when no prompt was resolved;
    nothing is called twice. *)
Theorem api_events_in_order (w : World) :
  exists key n,
    (n <= 4)%nat
    /\ filter is_api_event (events w)
       = firstn n (request_events key (resolved_prompt w) (args_model w))
    /\ (n = 0%nat <-> no_prompt w).
Proof.
  destruct (events_cases w) as [[Hn [Hev _]]|[Hn [r [evs [Hev [_ [_ Hk]]]]]]].
  - exists "", 0%nat. split; [lia|]. split; [|tauto].
    rewrite Hev, filter_app, (filter_none _ (read_events w));
      [reflexivity|].
    intros x Hx. exact (proj2 (read_events_kinds w x Hx)).
  - assert (Hf : filter is_api_event (events w)
                 = EvEnvironGet "GEMINI_API_KEY" :: evs).
    { rewrite Hev, filter_app, (filter_none _ (prelude w));
        [|intros x Hx; exact (proj2 (prelude_kinds w x Hx))].
      cbn [app filter is_api_event]. rewrite filter_app.
      cbn [filter is_api_event is_library_event]. rewrite app_nil_r.
      f_equal. apply filter_all. intros x Hx.
      destruct Hk as [[_ [-> _]]|[key [n [_ [_ [_ ->]]]]]]; [destruct Hx|].
      apply library_events_kinds in Hx.
      destruct x; try discriminate; reflexivity. }
    destruct Hk as [[_ [-> _]]|[key [n [_ [_ [Hle ->]]]]]].
    + exists "", 1%nat. split; [lia|]. rewrite Hf.
      split; [reflexivity|]. split; [discriminate | contradiction].
    + exists key, (S n). split; [lia|]. rewrite Hf.
      split; [reflexivity|]. split; [discriminate | contradiction].
Qed.

Lemma api_events_in_order_witness :
  exists key n,
    filter is_api_event (events (Samples.unknown_model ["hi"]))
    = firstn n (request_events key "hi" "no-such-model").
Proof.
  destruct (api_events_in_order (Samples.unknown_model ["hi"]))
    as [key [n [_ [H _]]]].
  exists key, n. exact H.
Defined.

(** *** Whole runs by the answer of the API layer *)

(** X9. When a prompt is resolved and the credential is unset or empty,
    the run reads the environment, prints the message of the missing
    credential on standard output and exits with status 1; the library
    is not called. *)
Theorem run_without_key (w : World) :
  ~ no_prompt w ->
  environ w "GEMINI_API_KEY" = None
  \/ environ w "GEMINI_API_KEY" = Some "" ->
  events w
  = (prelude w ++
     [EvEnvironGet "GEMINI_API_KEY";
      EvPrint Stdout "Error: GEMINI_API_KEY environment variable not set."])%list
  /\ exit_code w = 1%Z.
Proof.
  intros Hn Hk.
  assert (Ht : Py.truthy_opt (environ w "GEMINI_API_KEY") = false)
    by (destruct Hk as [-> | ->]; reflexivity).
  unfold events, exit_code.
  rewrite (run_of_call w msg_no_key [EvEnvironGet "GEMINI_API_KEY"] Hn
             (call_gemini_no_key w _ _ _ Ht)).
  split; reflexivity.
Qed.

Lemma run_without_key_witness :
  events (Samples.keyless [] "list files")
  = [EvIsatty; EvStdinRead; EvEnvironGet "GEMINI_API_KEY";
     EvPrint Stdout "Error: GEMINI_API_KEY environment variable not set."]
  /\ exit_code (Samples.keyless [] "list files") = 1%Z.
Proof.
  assert (Hn : ~ no_prompt (Samples.keyless [] "list files"))
    by (intros [_ H]; discriminate H).
  exact (run_without_key (Samples.keyless [] "list files") Hn
                         (or_introl eq_refl)).
Defined.

(** X10. When a prompt is resolved, the credential is set and the library
    returns a response, the run makes the three calls of the library
    once each and prints one string: the message of the missing content
    if the response has no candidate, with exit status 1; the stripped
    text of the response if it has candidates and a text, with exit
    status 1 if that text starts with ["error:"] up to case and 0
    otherwise. *)
Theorem run_with_response (w : World) (key : string) (resp : Response) :
  ~ no_prompt w ->
  environ w "GEMINI_API_KEY" = Some key -> key <> "" ->
  genai_configure w key = None ->
  genai_GenerativeModel w (args_model w) = None ->
  genai_generate_content w (args_model w)
                         (system_prompt ++ resolved_prompt w) = inr resp ->
  (candidates resp = [] ->
   events w
   = (prelude w ++ request_events key (resolved_prompt w) (args_model w)
      ++ [EvPrint Stdout
            "Error: No content generated (check safety settings or prompt)."])%list
   /\ exit_code w = 1%Z)
  /\ (candidates resp <> [] ->
      forall t, text resp = inr t ->
      events w
      = (prelude w ++ request_events key (resolved_prompt w) (args_model w)
         ++ [EvPrint Stdout (Py.strip t)])%list
      /\ (exit_code w = 1%Z <-> caseless_prefix "error:" (Py.strip t))
      /\ (exit_code w = 0%Z <-> ~ caseless_prefix "error:" (Py.strip t))).
Proof.
  intros Hn Hk Hne Hc Hm Hg.
  assert (Ht : Py.truthy key = true)
    by (destruct key; [congruence | reflexivity]).
  pose proof (call_gemini_with_key
                w (resolved_prompt w) (args_model w) key
                (mkState (resolved_prompt w) (prelude w)) Hk Ht) as Hcall.
  rewrite Hc, Hm, Hg in Hcall.
  split.
  - intros He. rewrite He in Hcall. unfold events, exit_code.
    rewrite (run_of_call w _ _ Hn Hcall). split; reflexivity.
  - intros He t Htext.
    destruct (candidates resp) as [|c cs]; [congruence|].
    rewrite Htext in Hcall. unfold events, exit_code.
    rewrite (run_of_call w _ _ Hn Hcall). cbn [fst snd trace].
    split; [reflexivity|].
    pose proof (PyFacts.startswith_lower_iff (Py.strip t) "error:" eq_refl)
      as Hiff.
    unfold flagged. destruct (Py.startswith (Py.lower (Py.strip t)) "error:").
    + split; split; auto; try discriminate.
      * intros _. now apply Hiff.
      * intros H. exfalso. apply H. now apply Hiff.
    + split; split; auto; try discriminate.
      * intros H. apply Hiff in H. discriminate.
      * intros _ H. apply Hiff in H. discriminate.
Qed.

Lemma run_with_response_witness :
  events (Samples.blocked ["hi"])
  = (request_events "secret" "hi" "gemini-1.5-flash-latest"
     ++ [EvPrint Stdout
           "Error: No content generated (check safety settings or prompt)."])%list
  /\ exit_code (Samples.blocked ["hi"]) = 1%Z.
Proof.
  assert (Hn : ~ no_prompt (Samples.blocked ["hi"]))
    by (intros [H _]; discriminate H).
  assert (Hkey : "secret" <> "") by discriminate.
  exact (proj1 (run_with_response
                  (Samples.blocked ["hi"]) "secret"
                  (mkResponse [] (inl (Py.mkException "no valid part")))
                  Hn eq_refl Hkey eq_refl eq_refl eq_refl) eq_refl).
Defined.

(** X11. A run that prints the string of a caught exception, whatever the
    exception, exits with status 0. *)
Theorem api_error_exit_status (w : World) (e : Py.Exception) :
  printed_result w ("Error calling Gemini API: " ++ Py.exc_str e) ->
  exit_code w = 0%Z.
Proof.
  intros Hp.
  destruct (events_cases w) as [[Hn [Hev _]]|[Hn _]].
  - exfalso. unfold printed_result in Hp. rewrite Hev in Hp.
    apply in_app_or in Hp. destruct Hp as [Hp|[Hp|[Hp|[]]]];
      try discriminate.
    apply read_events_kinds in Hp. destruct Hp as [Hp _]. discriminate.
  - destruct (delivered_printed w _ _ (run_delivered w Hn))
      as [r [Hx Hr]].
    + intros x Hx. exact (proj1 (prelude_kinds w x Hx)).
    + apply Hr in Hp. subst r. rewrite Hx.
      change (Py.startswith
                (Py.lower ("Error calling Gemini API: " ++ Py.exc_str e))
                "error:")
        with (Py.startswith (Py.lower (msg_api_error e)) "error:").
      rewrite api_error_not_flagged. reflexivity.
Qed.

Lemma api_error_exit_status_witness :
  printed_result (Samples.unreadable ["hi"])
                 "Error calling Gemini API: no valid part"
  /\ exit_code (Samples.unreadable ["hi"]) = 0%Z.
Proof.
  assert (H : printed_result (Samples.unreadable ["hi"])
                             "Error calling Gemini API: no valid part").
  { vm_compute. do 4 right. left. reflexivity. }
  split; [exact H|].
  exact (api_error_exit_status (Samples.unreadable ["hi"])
                               (Py.mkException "no valid part") H).
Defined.

(** *** Failures inside [call_gemini] *)

(** X12. [call_gemini] stops at the first operation of the library that
    raises and returns the string of that exception: after a [configure]
    that raises no model is created, after a [GenerativeModel] that
    raises no generation call is made, and a [generate_content] that
    raises is not tried again. *)
Theorem fail_fast (w : World) (p m key : string) (s : State) :
  environ w "GEMINI_API_KEY" = Some key -> key <> "" ->
  (forall e, genai_configure w key = Some e ->
     call_gemini w p m s
     = (Return ("Error calling Gemini API: " ++ Py.exc_str e),
        extend s [EvEnvironGet "GEMINI_API_KEY"; EvConfigure key]))
  /\ (genai_configure w key = None ->
      forall e, genai_GenerativeModel w m = Some e ->
        call_gemini w p m s
        = (Return ("Error calling Gemini API: " ++ Py.exc_str e),
           extend s [EvEnvironGet "GEMINI_API_KEY"; EvConfigure key;
                     EvGenerativeModel m]))
  /\ (genai_configure w key = None ->
      genai_GenerativeModel w m = None ->
      forall e, genai_generate_content w m (system_prompt ++ p) = inl e ->
        call_gemini w p m s
        = (Return ("Error calling Gemini API: " ++ Py.exc_str e),
           extend s [EvEnvironGet "GEMINI_API_KEY"; EvConfigure key;
                     EvGenerativeModel m;
                     EvGenerateContent m (system_prompt ++ p)])).
Proof.
  intros Hk Hne.
  assert (Ht : Py.truthy key = true)
    by (destruct key; [congruence | reflexivity]).
  pose proof (call_gemini_with_key w p m key s Hk Ht) as Hcall.
  split; [|split].
  - intros e Hc. rewrite Hc in Hcall. exact Hcall.
  - intros Hc e Hm. rewrite Hc, Hm in Hcall. exact Hcall.
  - intros Hc Hm e Hg. rewrite Hc, Hm, Hg in Hcall. exact Hcall.
Qed.

Lemma fail_fast_witness :
  call_gemini (Samples.refusing []) "hi" "m" initial
  = (Return "Error calling Gemini API: bad key",
     mkState "" [EvEnvironGet "GEMINI_API_KEY"; EvConfigure "secret"])
  /\ call_gemini (Samples.unknown_model []) "hi" "no-such-model" initial
     = (Return "Error calling Gemini API: unknown model",
        mkState "" [EvEnvironGet "GEMINI_API_KEY"; EvConfigure "secret";
                    EvGenerativeModel "no-such-model"]).
Proof.
  assert (Hkey : "secret" <> "") by discriminate.
  split.
  - exact (proj1 (fail_fast (Samples.refusing []) "hi" "m" "secret" initial
                            eq_refl Hkey)
                 (Py.mkException "bad key") eq_refl).
  - exact (proj1 (proj2 (fail_fast (Samples.unknown_model []) "hi"
                                   "no-such-model" "secret" initial
                                   eq_refl Hkey))
                 eq_refl (Py.mkException "unknown model") eq_refl).
Defined.

(** X13. When the response has candidates but reading its text raises,
    [call_gemini] returns the string of that exception, after the same
    four events as a call that succeeds. *)
Theorem unreadable_text (w : World) (p m key : string) (s : State)
    (resp : Response) (e : Py.Exception) :
  environ w "GEMINI_API_KEY" = Some key -> key <> "" ->
  genai_configure w key = None ->
  genai_GenerativeModel w m = None ->
  genai_generate_content w m (system_prompt ++ p) = inr resp ->
  candidates resp <> [] -> text resp = inl e ->
  call_gemini w p m s
  = (Return ("Error calling Gemini API: " ++ Py.exc_str e),
     extend s (request_events key p m)).
Proof.
  intros Hk Hne Hc Hm Hg Hcs Ht.
  assert (Hkey : Py.truthy key = true)
    by (destruct key; [congruence | reflexivity]).
  rewrite (call_gemini_with_key w p m key s Hk Hkey), Hc, Hm, Hg, Ht.
  destruct (candidates resp); [congruence | reflexivity].
Qed.

Lemma unreadable_text_witness :
  fst (call_gemini (Samples.unreadable []) "hi" "m" initial)
  = Return "Error calling Gemini API: no valid part".
Proof.
  assert (Hkey : "secret" <> "") by discriminate.
  assert (Hcs : ["blocked"] <> @nil string) by discriminate.
  rewrite (unreadable_text
             (Samples.unreadable []) "hi" "m" "secret" initial
             (mkResponse ["blocked"] (inl (Py.mkException "no valid part")))
             (Py.mkException "no valid part")
             eq_refl Hkey eq_refl eq_refl eq_refl Hcs eq_refl).
  reflexivity.
Defined.

(** X14. What [call_gemini] returns is one of four things: the message of
    the missing credential, the message of the missing content, the
    string of a caught exception, or the stripped text of a response
    that has candidates. *)
Theorem result_kinds (w : World) (p m : string) (s : State) :
  exists r,
    fst (call_gemini w p m s) = Return r
    /\ (r = "Error: GEMINI_API_KEY environment variable not set."
        \/ r = "Error: No content generated (check safety settings or prompt)."
        \/ (exists e, r = "Error calling Gemini API: " ++ Py.exc_str e)
        \/ (exists resp t,
              genai_generate_content w m (system_prompt ++ p) = inr resp
              /\ candidates resp <> [] /\ text resp = inr t
              /\ r = Py.strip t)).
Proof.
  destruct (Py.truthy_opt (environ w "GEMINI_API_KEY")) eqn:Hkey.
  2:{ exists msg_no_key. rewrite (call_gemini_no_key w p m s Hkey). auto. }
  destruct (environ w "GEMINI_API_KEY") as [key|] eqn:Hk; [|discriminate].
  simpl in Hkey. rewrite (call_gemini_with_key w p m key s Hk Hkey).
  destruct (genai_configure w key) as [e|].
  { eexists. split; [reflexivity|]. right. right. left. now exists e. }
  destruct (genai_GenerativeModel w m) as [e|].
  { eexists. split; [reflexivity|]. right. right. left. now exists e. }
  eexists. split; [reflexivity|].
  destruct (genai_generate_content w m (system_prompt ++ p)) as [e|resp].
  { right. right. left. now exists e. }
  destruct (candidates resp) as [|c cs] eqn:Hcs; [auto|].
  destruct (text resp) as [e|t] eqn:Ht.
  { right. right. left. now exists e. }
  right. right. right. exists resp, t. rewrite Hcs, Ht.
  repeat split; auto. discriminate.
Qed.

(** X15. A prompt read from standard input reaches the library only
    non-empty and without whitespace at either end: with no positional
    argument, every generation call carries the preamble followed by
    such a string. *)
Theorem stdin_request_is_trimmed (w : World) (m t : string) :
  prompt_parts w = [] ->
  In (EvGenerateContent m t) (events w) ->
  exists q,
    t = system_prompt ++ q
    /\ q = Py.strip (stdin_data w)
    /\ q <> ""
    /\ starts_with_space q = false /\ ends_with_space q = false.
Proof.
  intros Hp Hin.
  destruct (proj1 (proj2 (run_request w)) m t Hin) as [_ Ht].
  assert (Hn : ~ no_prompt w).
  { intros Hn. destruct (events_cases w) as [[_ [Hev _]]|[Hn' _]];
      [|contradiction].
    rewrite Hev in Hin. apply in_app_or in Hin.
    destruct Hin as [Hin|[Hin|[Hin|[]]]]; try discriminate.
    apply read_events_kinds in Hin. destruct Hin as [_ Hin]. discriminate. }
  assert (Hs : Py.strip (stdin_data w) <> "")
    by (intros Hs; apply Hn; split; assumption).
  pose proof (delivered_prompt w _ _ (run_stdin_text w Hp Hs)) as Hr.
  exists (resolved_prompt w). split; [exact Ht|]. rewrite Hr.
  split; [reflexivity|]. split; [exact Hs|].
  exact (proj2 (PyFacts.strip_trimmed (stdin_data w))).
Qed.

Lemma stdin_request_is_trimmed_witness :
  In (EvGenerateContent "gemini-1.5-flash-latest"
                        (system_prompt ++ "list files"))
     (events (Samples.healthy [] ("  list files" ++ Py.nl)))
  /\ exists q,
       system_prompt ++ "list files" = system_prompt ++ q
       /\ q = Py.strip ("  list files" ++ Py.nl) /\ q <> "".
Proof.
  assert (Hin : In (EvGenerateContent "gemini-1.5-flash-latest"
                                      (system_prompt ++ "list files"))
                   (events (Samples.healthy [] ("  list files" ++ Py.nl)))).
  { vm_compute. do 5 right. left. reflexivity. }
  split; [exact Hin|].
  destruct (stdin_request_is_trimmed
              (Samples.healthy [] ("  list files" ++ Py.nl))
              _ _ eq_refl Hin) as [q [H1 [H2 [H3 _]]]].
  exists q. split; [exact H1|]. split; [exact H2 | exact H3].
Defined.
